(** * Cart-to-order transition and stock reservation

    A shallow embedding of the order and cart controllers
    ([createOrder], [updateOrderStatus], [cancelOrder], [updateCartItem])
    over an explicit model of the three MongoDB collections they touch.

    Conventions.
    - Documents are keyed by their [_id]; [ObjectId]s are strings, as the
      controllers compare them through [toString()].
    - JavaScript numbers (stock, quantity, money) are modelled as integers,
      standing for the doubles of that value; prices are in minor currency
      units.  The one product the handlers compute, the subtotal of an order
      line, is rounded as a double multiplication rounds it.
    - Every handler is a computation in a small state-and-exception monad
      over the database: a thrown error is what reaches [next(error)], and
      the database returned next to it is what has been persisted by then.
    - The persistence layer may reject a write.  Which writes are rejected
      is given by an [Env] value, so that partial failures can be stated. *)

From stdpp Require Import gmap strings list.
From Stdlib Require Import ZArith Lia.

Local Open Scope string_scope.
Local Open Scope Z_scope.

(** ** Documents *)

Abbreviation ObjectId := string (only parsing).

Module User.
Record t := mk { id : ObjectId; email : string; role : string }.
End User.

Module Product.
(** The product document, stored under its [_id]. *)
Record t := mk { name : string; sku : string; price : Z; stock : Z }.

Definition incStock (delta : Z) (p : t) : t :=
  mk (name p) (sku p) (price p) (stock p + delta).
End Product.

Module CartItem.
Record t := mk {
  _id : ObjectId;
  product : ObjectId;
  variant : option ObjectId;
  quantity : Z;
  price : Z;
  savedForLater : bool
}.

Definition setQuantity (q : Z) (it : t) : t :=
  mk (_id it) (product it) (variant it) q (price it) (savedForLater it).

Definition setSavedForLater (b : bool) (it : t) : t :=
  mk (_id it) (product it) (variant it) (quantity it) (price it) b.
End CartItem.

Module Coupon.
Record t := mk { code : string; value : Z }.
End Coupon.

Module Totals.
Record t := mk {
  subtotal : Z;
  discountTotal : Z;
  taxTotal : Z;
  shippingTotal : Z;
  grandTotal : Z
}.

Definition zero : t := mk 0 0 0 0 0.
End Totals.

Module Cart.
Record t := mk {
  _id : ObjectId;
  user : option ObjectId;
  sessionId : option string;
  items : list CartItem.t;
  appliedCoupons : list Coupon.t;
  totals : Totals.t
}.

Definition setItems (l : list CartItem.t) (c : t) : t :=
  mk (_id c) (user c) (sessionId c) l (appliedCoupons c) (totals c).

Definition setTotals (tt : Totals.t) (c : t) : t :=
  mk (_id c) (user c) (sessionId c) (items c) (appliedCoupons c) tt.

(** [cart.items = []; cart.appliedCoupons = []; cart.subtotal = 0; ...] *)
Definition clear (c : t) : t :=
  mk (_id c) (user c) (sessionId c) [] [] Totals.zero.
End Cart.

(** ** The result of a multiplication of doubles

    [a * b] on two integer-valued doubles is the double nearest the exact
    product (ties to the even significand of 53 bits), and an infinity once
    the rounded magnitude reaches [2 ^ 1024]. *)

Inductive JsNumber :=
| Finite (z : Z)
| Infinity (negative : bool).

Coercion Finite : Z >-> JsNumber.

(** The integer [n] rounded to 53 significant bits, ties to even. *)
Definition roundToDouble (n : Z) : Z :=
  let a := Z.abs n in
  let e := Z.log2 a in
  if e <=? 52 then n
  else
    let ulp := 2 ^ (e - 52) in
    let q := a / ulp in
    let r := a mod ulp in
    let up := (ulp <? 2 * r) || ((2 * r =? ulp) && Z.odd q) in
    Z.sgn n * ((if up then q + 1 else q) * ulp).

Definition jsNumberOf (n : Z) : JsNumber :=
  let r := roundToDouble n in
  if 2 ^ 1024 <=? Z.abs r then Infinity (r <? 0) else Finite r.

(** [a * b] *)
Definition jsMul (a b : Z) : JsNumber := jsNumberOf (a * b).

Module OrderItem.
Record t := mk {
  product : ObjectId;
  variant : option ObjectId;
  name : string;
  sku : string;
  price : Z;
  quantity : Z;
  subtotal : JsNumber
}.
End OrderItem.

Module OrderCoupon.
Record t := mk { code : string; discount : Z }.
End OrderCoupon.

Module StatusEntry.
Record t := mk { status : string; note : string }.
End StatusEntry.

Module Order.
Record t := mk {
  user : option ObjectId;
  email : option string;
  items : list OrderItem.t;
  billingAddress : string;
  shippingAddress : string;
  paymentMethod : string;
  shippingMethod : string;
  totals : Totals.t;
  notes : option string;
  appliedCoupons : list OrderCoupon.t;
  status : string;
  statusHistory : list StatusEntry.t
}.

(** [order.status = s; order.statusHistory.push(e)] *)
Definition transition (s : string) (e : StatusEntry.t) (o : t) : t :=
  mk (user o) (email o) (items o) (billingAddress o) (shippingAddress o)
     (paymentMethod o) (shippingMethod o) (totals o) (notes o)
     (appliedCoupons o) s (statusHistory o ++ [e]).
End Order.

(** ** The database *)

Record DB := mkDB {
  products : gmap ObjectId Product.t;
  carts : list Cart.t;
  orders : gmap ObjectId Order.t
}.

Definition setProducts (ps : gmap ObjectId Product.t) (db : DB) : DB :=
  mkDB ps (carts db) (orders db).
Definition setCarts (cs : list Cart.t) (db : DB) : DB :=
  mkDB (products db) cs (orders db).
Definition setOrders (os : gmap ObjectId Order.t) (db : DB) : DB :=
  mkDB (products db) (carts db) os.

(** ** Errors and the handler monad *)

Inductive Error :=
| ApiError (statusCode : Z) (message : string)
| TypeError (message : string)
| PersistenceError (operation : string).

Inductive Outcome (A : Type) :=
| Ok (a : A)
| Throw (e : Error).
Arguments Ok {A} a.
Arguments Throw {A} e.

Definition M (A : Type) : Type := DB -> DB * Outcome A.

Definition ret {A} (a : A) : M A := fun db => (db, Ok a).
Definition throw {A} (e : Error) : M A := fun db => (db, Throw e).
Definition bind {A B} (m : M A) (k : A -> M B) : M B :=
  fun db =>
    match m db with
    | (db', Ok a) => k a db'
    | (db', Throw e) => (db', Throw e)
    end.
Definition get : M DB := fun db => (db, Ok db).
Definition modify (f : DB -> DB) : M unit := fun db => (f db, Ok tt).

Declare Scope handler_scope.
Delimit Scope handler_scope with handler.
Notation "'let*' x ':=' m 'in' k" := (bind m (fun x => k))
  (at level 10, x name, m at level 100, k at level 200) : handler_scope.
Notation "m ';;' k" := (bind m (fun _ => k))
  (at level 100, k at level 200, right associativity) : handler_scope.
Local Open Scope handler_scope.

(** ** Environment: which writes the persistence layer rejects, and the
    [_id] Mongoose gives to a document built with [new Order(...)]. *)

Record Env := mkEnv {
  newObjectId : ObjectId;
  orderSaveFails : bool;
  cartSaveFails : bool;
  stockUpdateFailsAt : option nat
}.

(** JavaScript truthiness of an optional string: [undefined] and the empty
    string are falsy. *)
Definition truthy (s : option string) : bool :=
  match s with
  | Some s => negb (String.eqb s "")
  | None => false
  end.

(** [a || b] on an optional string with a string default. *)
Definition orDefault (s : option string) (d : string) : string :=
  match s with
  | Some s => if String.eqb s "" then d else s
  | None => d
  end.

(** ** Collection operations *)

(** A [Cart.findOne] filter: [{user: id}] or [{sessionId: sid}]. *)
Inductive Query :=
| ByUser (id : ObjectId)
| BySession (sid : string).

Definition matches (q : Query) (c : Cart.t) : bool :=
  match q with
  | ByUser u =>
      match Cart.user c with Some u' => String.eqb u' u | None => false end
  | BySession s =>
      match Cart.sessionId c with Some s' => String.eqb s' s | None => false end
  end.

(** The query built at the top of every cart-based handler:
    [if (req.user) ... else if (sessionId) ... else throw ApiError(400, msg)]. *)
Definition resolveQuery (user : option User.t) (sessionId : option string)
    (msg : string) : M Query :=
  match user with
  | Some u => ret (ByUser (User.id u))
  | None =>
      if truthy sessionId then ret (BySession (default "" sessionId))
      else throw (ApiError 400 msg)
  end.

Definition Cart_findOne (q : Query) : M (option Cart.t) :=
  fun db => (db, Ok (find (matches q) (carts db))).

(** [populate("items.product")]: each line's product reference is replaced by
    the product document, or [null] when there is none. *)
Definition populate (ps : gmap ObjectId Product.t) (c : Cart.t)
    : list (CartItem.t * option Product.t) :=
  map (fun it => (it, ps !! CartItem.product it)) (Cart.items c).

Definition Product_findById (id : ObjectId) : M (option Product.t) :=
  fun db => (db, Ok (products db !! id)).

(** [Product.findByIdAndUpdate(id, {$inc: {stock: delta}})]; a missing
    document is left missing. *)
Definition incStockOf (id : ObjectId) (delta : Z)
    (ps : gmap ObjectId Product.t) : gmap ObjectId Product.t :=
  alter (Product.incStock delta) id ps.

Definition Product_findByIdAndUpdate_inc (id : ObjectId) (delta : Z) : M unit :=
  modify (fun db => setProducts (incStockOf id delta (products db)) db).

Definition Order_findById (id : ObjectId) : M (option Order.t) :=
  fun db => (db, Ok (orders db !! id)).

(** [order.save()].  A new document is inserted and a duplicate [_id] is
    rejected; an existing one is overwritten. *)
Definition Order_save (env : Env) (isNew : bool) (id : ObjectId) (o : Order.t)
    : M unit :=
  fun db =>
    if orderSaveFails env then (db, Throw (PersistenceError "order.save"))
    else if isNew && bool_decide (is_Some (orders db !! id))
    then (db, Throw (PersistenceError "order.save"))
    else (setOrders (<[id := o]> (orders db)) db, Ok tt).

Definition replaceCart (c : Cart.t) (cs : list Cart.t) : list Cart.t :=
  map (fun c' => if String.eqb (Cart._id c') (Cart._id c) then c else c') cs.

(** [cart.save()] on a cart that was read from the collection. *)
Definition Cart_save (env : Env) (c : Cart.t) : M unit :=
  fun db =>
    if cartSaveFails env then (db, Throw (PersistenceError "cart.save"))
    else (setCarts (replaceCart c (carts db)) db, Ok tt).

(** [Cart.findOne(query).populate("items.product")] *)
Definition Cart_findOne_populated (q : Query)
    : M (option (Cart.t * list (CartItem.t * option Product.t))) :=
  fun db =>
    (db, Ok ((fun c => (c, populate (products db) c))
               <$> find (matches q) (carts db))).

(** A run of [findByIdAndUpdate(id, {$inc: {stock: delta}})] calls, one per
    entry and in order; [failAt = Some k] makes the call of index [k] throw. *)
Fixpoint incStocks (failAt : option nat) (updates : list (ObjectId * Z))
    : M unit :=
  match updates with
  | [] => ret tt
  | (id, delta) :: rest =>
      match failAt with
      | Some O => throw (PersistenceError "product.findByIdAndUpdate")
      | _ =>
          Product_findByIdAndUpdate_inc id delta ;;
          incStocks (Nat.pred <$> failAt) rest
      end
  end.

(** ** Order controller *)

Module CreateOrderReq.
Record t := mk {
  user : option User.t;
  shippingAddress : string;
  billingAddress : string;
  paymentMethod : string;
  shippingMethod : string;
  notes : option string;
  sessionId : option string;
  email : option string
}.
End CreateOrderReq.

(** Modelled from the spec: the [status] of a freshly constructed order.
    [createOrder] passes no [status] to [new Order]; the schema default lives in
    the order model, which is not part of the sources. *)
Definition defaultOrderStatus : string := "pending".

(** The stock validation loop of [createOrder]. *)
Fixpoint validateStock (items : list CartItem.t) : M unit :=
  match items with
  | [] => ret tt
  | item :: rest =>
      let* product := Product_findById (CartItem.product item) in
      match product with
      | None => throw (ApiError 400 ("Not enough stock for " +:+ "a product"))
      | Some p =>
          if Product.stock p <? CartItem.quantity item
          then throw (ApiError 400 ("Not enough stock for " +:+ Product.name p))
          else validateStock rest
      end
  end.

(** The callback of [cart.items.map] building one order line from a populated
    cart line; dereferencing a [null] product is a [TypeError]. *)
Definition orderItem (line : CartItem.t * option Product.t)
    : Outcome OrderItem.t :=
  let item := line.1 in
  match line.2 with
  | None => Throw (TypeError "Cannot read properties of null (reading '_id')")
  | Some p =>
      Ok (OrderItem.mk
            (CartItem.product item)
            (CartItem.variant item)
            (Product.name p)
            (Product.sku p)
            (CartItem.price item)
            (CartItem.quantity item)
            (jsMul (CartItem.price item) (CartItem.quantity item)))
  end.

Fixpoint mapOutcome {A B} (f : A -> Outcome B) (l : list A)
    : Outcome (list B) :=
  match l with
  | [] => Ok []
  | x :: rest =>
      match f x with
      | Throw e => Throw e
      | Ok y =>
          match mapOutcome f rest with
          | Throw e => Throw e
          | Ok ys => Ok (y :: ys)
          end
      end
  end.

Definition liftOutcome {A} (o : Outcome A) : M A := fun db => (db, o).

Definition orderCoupon (coupon : Coupon.t) : OrderCoupon.t :=
  OrderCoupon.mk (Coupon.code coupon) (Coupon.value coupon).

Definition newOrder (req : CreateOrderReq.t) (cart : Cart.t)
    (orderItems : list OrderItem.t) : Order.t :=
  Order.mk
    (User.id <$> CreateOrderReq.user req)
    (match CreateOrderReq.user req with
     | Some u => Some (User.email u)
     | None => CreateOrderReq.email req
     end)
    orderItems
    (CreateOrderReq.billingAddress req)
    (CreateOrderReq.shippingAddress req)
    (CreateOrderReq.paymentMethod req)
    (CreateOrderReq.shippingMethod req)
    (Totals.mk
       (Totals.subtotal (Cart.totals cart))
       (Totals.discountTotal (Cart.totals cart))
       (Totals.taxTotal (Cart.totals cart))
       (Totals.shippingTotal (Cart.totals cart))
       (Totals.grandTotal (Cart.totals cart)))
    (CreateOrderReq.notes req)
    (map orderCoupon (Cart.appliedCoupons cart))
    defaultOrderStatus
    [StatusEntry.mk "pending" "Order created"].

Definition stockDecrements (items : list CartItem.t) : list (ObjectId * Z) :=
  map (fun item => (CartItem.product item, - CartItem.quantity item)) items.

Definition createOrder (env : Env) (req : CreateOrderReq.t) : M Order.t :=
  let* query :=
    resolveQuery (CreateOrderReq.user req) (CreateOrderReq.sessionId req)
      "Session ID is required for guest checkout" in
  let* found := Cart_findOne_populated query in
  match found with
  | None => throw (ApiError 400 "Cart is empty")
  | Some (cart, populated) =>
      if (length (Cart.items cart) =? 0)%nat
      then throw (ApiError 400 "Cart is empty")
      else
        validateStock (Cart.items cart) ;;
        let* orderItems := liftOutcome (mapOutcome orderItem populated) in
        let order := newOrder req cart orderItems in
        Order_save env true (newObjectId env) order ;;
        incStocks (stockUpdateFailsAt env) (stockDecrements (Cart.items cart)) ;;
        Cart_save env (Cart.clear cart) ;;
        ret order
  end.

Module UpdateOrderStatusReq.
Record t := mk { id : ObjectId; status : string; note : option string }.
End UpdateOrderStatusReq.

Definition updateOrderStatus (env : Env) (req : UpdateOrderStatusReq.t)
    : M Order.t :=
  let id := UpdateOrderStatusReq.id req in
  let status := UpdateOrderStatusReq.status req in
  let* found := Order_findById id in
  match found with
  | None => throw (ApiError 404 "Order not found")
  | Some order =>
      let order' :=
        Order.transition status
          (StatusEntry.mk status
             (orDefault (UpdateOrderStatusReq.note req)
                ("Status updated to " +:+ status)))
          order in
      Order_save env false id order' ;;
      ret order'
  end.

Module CancelOrderReq.
(** [req.user] is dereferenced unconditionally: the handler runs behind the
    authentication middleware. *)
Record t := mk { user : User.t; id : ObjectId; reason : option string }.
End CancelOrderReq.

(** [req.user.role !== "admin" && order.user &&
     order.user.toString() !== req.user.id] *)
Definition notAuthorized (requester : User.t) (order : Order.t) : bool :=
  negb (String.eqb (User.role requester) "admin")
  && match Order.user order with
     | Some owner => negb (String.eqb owner (User.id requester))
     | None => false
     end.

(** [["pending", "processing"].includes(status)] *)
Definition cancellable (status : string) : bool :=
  existsb (String.eqb status) ["pending"; "processing"].

Definition stockRestores (items : list OrderItem.t) : list (ObjectId * Z) :=
  map (fun item => (OrderItem.product item, OrderItem.quantity item)) items.

Definition cancelOrder (env : Env) (req : CancelOrderReq.t) : M Order.t :=
  let id := CancelOrderReq.id req in
  let* found := Order_findById id in
  match found with
  | None => throw (ApiError 404 "Order not found")
  | Some order =>
      if notAuthorized (CancelOrderReq.user req) order
      then throw (ApiError 403 "You are not authorized to cancel this order")
      else if negb (cancellable (Order.status order))
      then throw (ApiError 400 "This order cannot be cancelled")
      else
        let order' :=
          Order.transition "cancelled"
            (StatusEntry.mk "cancelled"
               (orDefault (CancelOrderReq.reason req) "Order cancelled by user"))
            order in
        Order_save env false id order' ;;
        incStocks (stockUpdateFailsAt env) (stockRestores (Order.items order')) ;;
        ret order'
  end.

(** ** Cart controller *)

Module ProductSummary.
(** A product as [populate] returns it under
    [select: "name price images stock"]; images are not part of the model of
    the product document. *)
Record t := mk { name : string; price : Z; stock : Z }.
End ProductSummary.

Definition summary (p : Product.t) : ProductSummary.t :=
  ProductSummary.mk (Product.name p) (Product.price p) (Product.stock p).

(** [populate({path: "items.product", select: "name price images stock"})] *)
Definition populateSelected (ps : gmap ObjectId Product.t) (c : Cart.t)
    : list (CartItem.t * option ProductSummary.t) :=
  map (fun it => (it, summary <$> ps !! CartItem.product it)) (Cart.items c).


Module UpdateCartItemReq.
Record t := mk {
  user : option User.t;
  sessionId : option string;
  itemId : ObjectId;
  quantity : option Z;
  savedForLater : option bool
}.
End UpdateCartItemReq.

(** [Array.prototype.findIndex], with [None] for [-1]. *)
Fixpoint findIndex {A} (f : A -> bool) (l : list A) : option nat :=
  match l with
  | [] => None
  | x :: rest => if f x then Some O else S <$> findIndex f rest
  end.

Section CartController.

(** [cart.recalculateTotals()] is a method of the cart model, which is not
    part of the sources; it is taken as a parameter. *)
Variable recalculateTotals : Cart.t -> Cart.t.

(** The [if (quantity !== undefined)] block, on the cart's line items. *)
Definition applyQuantity (itemIndex : nat) (quantity : option Z)
    (items : list CartItem.t) : M (list CartItem.t) :=
  match quantity with
  | None => ret items
  | Some quantity =>
      if quantity <=? 0
      then ret (delete itemIndex items)
      else
        match items !! itemIndex with
        | None =>
            throw (TypeError
                     "Cannot read properties of undefined (reading 'product')")
        | Some item =>
            let* product := Product_findById (CartItem.product item) in
            match product with
            | None => throw (ApiError 400 "Not enough stock available")
            | Some p =>
                if Product.stock p <? quantity
                then throw (ApiError 400 "Not enough stock available")
                else ret (<[itemIndex := CartItem.setQuantity quantity item]> items)
            end
        end
  end.

(** The [if (savedForLater !== undefined)] block: a write through
    [cart.items[itemIndex]], which is [undefined] past the end. *)
Definition applySavedForLater (itemIndex : nat) (savedForLater : option bool)
    (items : list CartItem.t) : M (list CartItem.t) :=
  match savedForLater with
  | None => ret items
  | Some flag =>
      match items !! itemIndex with
      | None =>
          throw (TypeError
                   "Cannot set properties of undefined (setting 'savedForLater')")
      | Some item =>
          ret (<[itemIndex := CartItem.setSavedForLater flag item]> items)
      end
  end.

Definition updateCartItem (env : Env) (req : UpdateCartItemReq.t)
    : M (Cart.t * list (CartItem.t * option ProductSummary.t)) :=
  let* query :=
    resolveQuery (UpdateCartItemReq.user req) (UpdateCartItemReq.sessionId req)
      "Session ID is required for guest cart" in
  let* found := Cart_findOne query in
  match found with
  | None => throw (ApiError 404 "Cart not found")
  | Some cart =>
      match
        findIndex
          (fun item => String.eqb (CartItem._id item) (UpdateCartItemReq.itemId req))
          (Cart.items cart)
      with
      | None => throw (ApiError 404 "Item not found in cart")
      | Some itemIndex =>
          let* items1 :=
            applyQuantity itemIndex (UpdateCartItemReq.quantity req)
              (Cart.items cart) in
          let* items2 :=
            applySavedForLater itemIndex (UpdateCartItemReq.savedForLater req)
              items1 in
          let cart' := recalculateTotals (Cart.setItems items2 cart) in
          Cart_save env cart' ;;
          let* db := get in
          ret (cart', populateSelected (products db) cart')
      end
  end.

End CartController.

(** ** The remaining handlers of the two controllers *)

Module ClearCartReq.
Record t := mk { user : option User.t; sessionId : option string }.
End ClearCartReq.

Definition clearCart (env : Env) (req : ClearCartReq.t) : M Cart.t :=
  let* query :=
    resolveQuery (ClearCartReq.user req) (ClearCartReq.sessionId req)
      "Session ID is required for guest cart" in
  let* found := Cart_findOne query in
  match found with
  | None => throw (ApiError 404 "Cart not found")
  | Some cart =>
      let cart' := Cart.clear cart in
      Cart_save env cart' ;;
      ret cart'
  end.

Module GetOrderByIdReq.
(** As in [cancelOrder], [req.user] is dereferenced unconditionally. *)
Record t := mk { user : User.t; id : ObjectId }.
End GetOrderByIdReq.

Definition getOrderById (req : GetOrderByIdReq.t) : M Order.t :=
  let* found := Order_findById (GetOrderByIdReq.id req) in
  match found with
  | None => throw (ApiError 404 "Order not found")
  | Some order =>
      if notAuthorized (GetOrderByIdReq.user req) order
      then throw (ApiError 403 "You are not authorized to view this order")
      else ret order
  end.

Module GetCartReq.
Record t := mk { user : option User.t; sessionId : option string }.
End GetCartReq.

(** The two bodies [getCart] answers with: the literal
    [{items: [], subtotal: 0, grandTotal: 0}], or the populated cart. *)
Inductive GetCartResponse :=
| CartIsEmpty
| CartRetrieved (cart : Cart.t)
    (populated : list (CartItem.t * option ProductSummary.t)).

Definition getCart (req : GetCartReq.t) : M GetCartResponse :=
  let* found :=
    match GetCartReq.user req with
    | Some u => Cart_findOne (ByUser (User.id u))
    | None =>
        if truthy (GetCartReq.sessionId req)
        then Cart_findOne (BySession (default "" (GetCartReq.sessionId req)))
        else ret None
    end in
  match found with
  | None => ret CartIsEmpty
  | Some cart =>
      let* db := get in
      ret (CartRetrieved cart (populateSelected (products db) cart))
  end.

Module AddToCartReq.
Record t := mk {
  user : option User.t;
  sessionId : option string;
  productId : ObjectId;
  variantId : option ObjectId;
  quantity : Z
}.
End AddToCartReq.

Module RemoveFromCartReq.
Record t := mk {
  user : option User.t;
  sessionId : option string;
  itemId : ObjectId
}.
End RemoveFromCartReq.

(** The [_id]s Mongoose gives to a cart built with [new Cart(...)] and to a
    line pushed onto [cart.items]. *)
Record NewIds := mkNewIds {
  newCartId : ObjectId;
  newItemId : ObjectId
}.

(** The [findIndex] callback of [addToCart]:
    [item.product.toString() === productId &&
     (!variantId || item.variant?.toString() === variantId)]. *)
Definition sameLine (productId : ObjectId) (variantId : option ObjectId)
    (item : CartItem.t) : bool :=
  String.eqb (CartItem.product item) productId
  && (negb (truthy variantId)
      || match CartItem.variant item with
         | Some v => String.eqb v (default "" variantId)
         | None => false
         end).

(** [cart.save()] on a cart built with [new Cart(...)]: the document is
    inserted, and a duplicate [_id] is rejected. *)
Definition Cart_saveNew (env : Env) (c : Cart.t) : M unit :=
  fun db =>
    if cartSaveFails env then (db, Throw (PersistenceError "cart.save"))
    else if existsb (fun c' => String.eqb (Cart._id c') (Cart._id c)) (carts db)
    then (db, Throw (PersistenceError "cart.save"))
    else (setCarts (carts db ++ [c]) db, Ok tt).

Section CartLines.

(** [cart.recalculateTotals()] and the schema defaults of a new cart and of a
    new line belong to the cart model, which is not part of the sources; they
    are parameters. *)
Variable recalculateTotals : Cart.t -> Cart.t.
Variable defaultTotals : Totals.t.
Variable defaultSavedForLater : bool.

(** [new Cart({...(req.user ? {user: req.user.id} : {sessionId}), items: []})] *)
Definition newCart (ids : NewIds) (q : Query) : Cart.t :=
  match q with
  | ByUser u => Cart.mk (newCartId ids) (Some u) None [] [] defaultTotals
  | BySession s => Cart.mk (newCartId ids) None (Some s) [] [] defaultTotals
  end.

(** The [if (existingItemIndex > -1) ... else ...] block of [addToCart]. *)
Definition addLine (ids : NewIds) (req : AddToCartReq.t) (product : Product.t)
    (items : list CartItem.t) : list CartItem.t :=
  match
    findIndex (sameLine (AddToCartReq.productId req) (AddToCartReq.variantId req))
      items
  with
  | Some existingItemIndex =>
      alter (fun item =>
               CartItem.setQuantity
                 (CartItem.quantity item + AddToCartReq.quantity req) item)
        existingItemIndex items
  | None =>
      items ++
      [CartItem.mk (newItemId ids) (AddToCartReq.productId req)
         (AddToCartReq.variantId req) (AddToCartReq.quantity req)
         (Product.price product) defaultSavedForLater]
  end.

Definition addToCart (env : Env) (ids : NewIds) (req : AddToCartReq.t)
    : M (Cart.t * list (CartItem.t * option ProductSummary.t)) :=
  let* product := Product_findById (AddToCartReq.productId req) in
  match product with
  | None => throw (ApiError 404 "Product not found")
  | Some product =>
      if Product.stock product <? AddToCartReq.quantity req
      then throw (ApiError 400 "Not enough stock available")
      else
        let* query :=
          resolveQuery (AddToCartReq.user req) (AddToCartReq.sessionId req)
            "Session ID is required for guest cart" in
        let* found := Cart_findOne query in
        let cart := default (newCart ids query) found in
        let cart' :=
          recalculateTotals
            (Cart.setItems (addLine ids req product (Cart.items cart)) cart) in
        match found with
        | Some _ => Cart_save env cart'
        | None => Cart_saveNew env cart'
        end ;;
        let* db := get in
        ret (cart', populateSelected (products db) cart')
  end.

Definition removeFromCart (env : Env) (req : RemoveFromCartReq.t) : M Cart.t :=
  let* query :=
    resolveQuery (RemoveFromCartReq.user req) (RemoveFromCartReq.sessionId req)
      "Session ID is required for guest cart" in
  let* found := Cart_findOne query in
  match found with
  | None => throw (ApiError 404 "Cart not found")
  | Some cart =>
      let cart' :=
        recalculateTotals
          (Cart.setItems
             (List.filter
                (fun item =>
                   negb (String.eqb (CartItem._id item)
                           (RemoveFromCartReq.itemId req)))
                (Cart.items cart))
             cart) in
      Cart_save env cart' ;;
      ret cart'
  end.

End CartLines.

(** * Vocabulary of the statements *)

(** The error kinds of the order life cycle, as the controllers raise them. *)
Definition EmptyCartError : Error := ApiError 400 "Cart is empty".
Definition InsufficientStockError (label : string) : Error :=
  ApiError 400 ("Not enough stock for " +:+ label).
Definition ForbiddenError : Error :=
  ApiError 403 "You are not authorized to cancel this order".
Definition InvalidTransitionError : Error :=
  ApiError 400 "This order cannot be cancelled".

(** The query a request resolves to, if any. *)
Definition resolved (user : option User.t) (sessionId : option string)
    : option Query :=
  match user with
  | Some u => Some (ByUser (User.id u))
  | None => if truthy sessionId then Some (BySession (default "" sessionId)) else None
  end.

(** A cart line passes the stock check of [createOrder]. *)
Definition inStock (ps : gmap ObjectId Product.t) (item : CartItem.t) : bool :=
  match ps !! CartItem.product item with
  | Some p => negb (Product.stock p <? CartItem.quantity item)
  | None => false
  end.

(** What the "Not enough stock" message calls the product of a line. *)
Definition stockLabel (ps : gmap ObjectId Product.t) (item : CartItem.t)
    : string :=
  match ps !! CartItem.product item with
  | Some p => Product.name p
  | None => "a product"
  end.

(** The effect of a run of [$inc] updates on the product collection. *)
Definition applyIncs (updates : list (ObjectId * Z))
    (ps : gmap ObjectId Product.t) : gmap ObjectId Product.t :=
  foldl (fun ps u => incStockOf u.1 u.2 ps) ps updates.

(** Sum of the deltas addressed to one product. *)
Definition totalDelta (id : ObjectId) (updates : list (ObjectId * Z)) : Z :=
  foldr (fun u acc => if String.eqb u.1 id then u.2 + acc else acc) 0 updates.

Definition stockOf (ps : gmap ObjectId Product.t) (id : ObjectId) : option Z :=
  Product.stock <$> ps !! id.

(** The index at which a run of [n] stock updates is interrupted, if any. *)
Definition interruptedAt (failAt : option nat) (n : nat) : option nat :=
  match failAt with
  | Some k => if decide (k < n)%nat then Some k else None
  | None => None
  end.

(** An order line is the snapshot of a cart line: name and SKU come from the
    product document, the price is the unit price stored in the cart line. *)
Definition snapshotOf (ps : gmap ObjectId Product.t)
    (item : CartItem.t) (line : OrderItem.t) : Prop :=
  exists p,
    ps !! CartItem.product item = Some p /\
    line = OrderItem.mk
             (CartItem.product item) (CartItem.variant item)
             (Product.name p) (Product.sku p)
             (CartItem.price item) (CartItem.quantity item)
             (jsMul (CartItem.price item) (CartItem.quantity item)).

(** What remains of [createOrder] once the order document is built: save the
    order, decrement the stock, clear and save the cart. *)
Definition commitOrder (env : Env) (cart : Cart.t) (order : Order.t)
    : M Order.t :=
  Order_save env true (newObjectId env) order ;;
  incStocks (stockUpdateFailsAt env) (stockDecrements (Cart.items cart)) ;;
  Cart_save env (Cart.clear cart) ;;
  ret order.

(** Total quantity a cart asks of one product, over all its lines. *)
Definition orderedQuantity (id : ObjectId) (items : list CartItem.t) : Z :=
  foldr (fun item acc =>
           if String.eqb (CartItem.product item) id
           then CartItem.quantity item + acc else acc) 0 items.

(** The persistence layer accepts every write of the request. *)
Definition noFaults (env : Env) : Prop :=
  orderSaveFails env = false /\
  cartSaveFails env = false /\
  stockUpdateFailsAt env = None.

(** The reading of C8 as it is worded: every order line carries the name, the
    SKU and the price of the current product document. *)
Definition claimed_fresh_snapshot (env : Env) (req : CreateOrderReq.t) (db : DB)
    : Prop :=
  forall db' order,
    createOrder env req db = (db', Ok order) ->
    Forall (fun line =>
              exists p,
                products db !! OrderItem.product line = Some p /\
                OrderItem.name line = Product.name p /\
                OrderItem.sku line = Product.sku p /\
                OrderItem.price line = Product.price p /\
                OrderItem.subtotal line
                  = OrderItem.price line * OrderItem.quantity line)
           (Order.items order).

(** The reading of C3 as it is worded: with a line that asks for more than its
    product has, the error carries the name of a product of the cart that is
    short of stock. *)
Definition claimed_names_offending_product
    (env : Env) (req : CreateOrderReq.t) (db : DB) : Prop :=
  forall q cart i item p,
    resolved (CreateOrderReq.user req) (CreateOrderReq.sessionId req) = Some q ->
    find (matches q) (carts db) = Some cart ->
    Cart.items cart !! i = Some item ->
    products db !! CartItem.product item = Some p ->
    Product.stock p < CartItem.quantity item ->
    exists offender p',
      offender ∈ Cart.items cart /\
      products db !! CartItem.product offender = Some p' /\
      Product.stock p' < CartItem.quantity offender /\
      createOrder env req db
        = (db, Throw (InsufficientStockError (Product.name p'))).

(** The reading of C2 as it is worded: whatever error [createOrder] raises,
    no stock has changed and the cart is as it was. *)
Definition claimed_atomic (env : Env) (req : CreateOrderReq.t) (db : DB) : Prop :=
  forall db' e,
    createOrder env req db = (db', Throw e) ->
    products db' = products db /\ carts db' = carts db.

(** The cart has a line that is not flagged "saved for later". *)
Definition hasIncludedLine (cart : Cart.t) : bool :=
  existsb (fun item => negb (CartItem.savedForLater item)) (Cart.items cart).

(** The reading of C7 as it is worded: [EmptyCartError] exactly when the
    resolved cart has no line outside "saved for later". *)
Definition claimed_empty_iff_no_included_line
    (env : Env) (req : CreateOrderReq.t) (db : DB) : Prop :=
  forall q cart,
    resolved (CreateOrderReq.user req) (CreateOrderReq.sessionId req) = Some q ->
    find (matches q) (carts db) = Some cart ->
    ((createOrder env req db).2 = Throw EmptyCartError
     <-> hasIncludedLine cart = false).

Definition statusUpdated (req : UpdateOrderStatusReq.t) (order : Order.t)
    : Order.t :=
  Order.transition (UpdateOrderStatusReq.status req)
    (StatusEntry.mk (UpdateOrderStatusReq.status req)
       (orDefault (UpdateOrderStatusReq.note req)
          ("Status updated to " +:+ UpdateOrderStatusReq.status req)))
    order.

Definition cancelled (req : CancelOrderReq.t) (order : Order.t) : Order.t :=
  Order.transition "cancelled"
    (StatusEntry.mk "cancelled"
       (orDefault (CancelOrderReq.reason req) "Order cancelled by user"))
    order.

(** Total quantity an order holds of one product, over all its lines. *)
Definition restoredQuantity (id : ObjectId) (items : list OrderItem.t) : Z :=
  foldr (fun item acc =>
           if String.eqb (OrderItem.product item) id
           then OrderItem.quantity item + acc else acc) 0 items.

(** The requester is an administrator or the owning user of the order. *)
Definition ownerOrAdmin (requester : User.t) (order : Order.t) : Prop :=
  User.role requester = "admin" \/ Order.user order = Some (User.id requester).

(** The reading of C9 as it is worded: anyone who is neither administrator nor
    owner is refused, whatever the order. *)
Definition claimed_forbidden (env : Env) (req : CancelOrderReq.t) (db : DB)
    : Prop :=
  forall order,
    orders db !! CancelOrderReq.id req = Some order ->
    ~ ownerOrAdmin (CancelOrderReq.user req) order ->
    cancelOrder env req db = (db, Throw ForbiddenError).

(** The reading of C6 as it is worded, for a cancelled order. *)
Definition claimed_cancelled_is_final (env : Env) (req : UpdateOrderStatusReq.t)
    (db : DB) : Prop :=
  forall order,
    orders db !! UpdateOrderStatusReq.id req = Some order ->
    Order.status order = "cancelled" ->
    updateOrderStatus env req db = (db, Throw InvalidTransitionError).

(** One handler run to completion, whatever its outcome. *)
Inductive step : DB -> DB -> Prop :=
| step_createOrder env req db : step db (createOrder env req db).1
| step_cancelOrder env req db : step db (cancelOrder env req db).1.

Record consistent (db : DB) : Prop := mkConsistent {
  stock_nonneg :
    forall id p, products db !! id = Some p -> 0 <= Product.stock p;
  cart_quantities :
    forall cart item,
      cart ∈ carts db -> item ∈ Cart.items cart -> 0 <= CartItem.quantity item;
  cart_one_line_per_product :
    forall cart,
      cart ∈ carts db -> NoDup (CartItem.product <$> Cart.items cart);
  order_quantities :
    forall id order line,
      orders db !! id = Some order -> line ∈ Order.items order ->
      0 <= OrderItem.quantity line
}.

(** * Scenarios *)

(** The scenario of the specification: two units of P (stock 5, price 10.00)
    and one unit of Q (stock 1, price 20.00) in the cart of a signed-in
    customer. *)
Module Scenario.
Definition P : Product.t := Product.mk "Pen" "SKU-P" 1000 5.
Definition Q : Product.t := Product.mk "Quill" "SKU-Q" 2000 1.
Definition lineP : CartItem.t := CartItem.mk "i1" "p" None 2 1000 false.
Definition lineQ : CartItem.t := CartItem.mk "i2" "q" None 1 2000 false.
Definition cart : Cart.t :=
  Cart.mk "c1" (Some "u1") None [lineP; lineQ] [] (Totals.mk 4000 0 0 0 4000).
Definition db : DB := mkDB (<["p" := P]> (<["q" := Q]> ∅)) [cart] ∅.
Definition alice : User.t := User.mk "u1" "alice@example.com" "customer".
Definition req : CreateOrderReq.t :=
  CreateOrderReq.mk (Some alice) "1 Main St" "1 Main St" "card" "standard"
    None None None.
Definition env : Env := mkEnv "o1" false false None.
End Scenario.

Module ScenarioShort.
(** Same cart, but Q is out of stock at check time. *)
Definition Q0 : Product.t := Product.mk "Quill" "SKU-Q" 2000 0.
Definition db : DB :=
  mkDB (<["p" := Scenario.P]> (<["q" := Q0]> ∅)) [Scenario.cart] ∅.
End ScenarioShort.

Module ScenarioDangling.
(** The product of the first line has been deleted from the catalogue; Q, two
    lines further, is out of stock. *)
Definition lineGone : CartItem.t := CartItem.mk "i0" "gone" None 1 500 false.
Definition cart : Cart.t :=
  Cart.mk "c1" (Some "u1") None [lineGone; Scenario.lineP; Scenario.lineQ] []
    (Totals.mk 4500 0 0 0 4500).
Definition db : DB :=
  mkDB (<["p" := Scenario.P]> (<["q" := ScenarioShort.Q0]> ∅)) [cart] ∅.
End ScenarioDangling.

Module ScenarioHuge.
(** A line whose exact subtotal, 94906267 squared, is odd and above 2^53. *)
Definition bulk : Product.t := Product.mk "Rivet" "SKU-R" 94906267 94906267.
Definition line : CartItem.t :=
  CartItem.mk "i1" "r" None 94906267 94906267 false.
Definition cart : Cart.t :=
  Cart.mk "c1" (Some "u1") None [line] [] (Totals.mk 0 0 0 0 0).
Definition db : DB := mkDB (<["r" := bulk]> ∅) [cart] ∅.
End ScenarioHuge.

Module ScenarioRepriced.
(** P went from 10.00 to 12.00 after it was put in the cart. *)
Definition P' : Product.t := Product.mk "Pen" "SKU-P" 1200 5.
Definition db : DB :=
  mkDB (<["p" := P']> (<["q" := Scenario.Q]> ∅)) [Scenario.cart] ∅.
Definition order : Order.t :=
  newOrder Scenario.req Scenario.cart
    [OrderItem.mk "p" None "Pen" "SKU-P" 1000 2 2000;
     OrderItem.mk "q" None "Quill" "SKU-Q" 2000 1 2000].
End ScenarioRepriced.

Module ScenarioCartSaveRejected.
Definition env : Env := mkEnv "o1" false true None.
End ScenarioCartSaveRejected.

Module ScenarioSaved.
(** Both lines of the cart are saved for later. *)
Definition lineP : CartItem.t := CartItem.mk "i1" "p" None 2 1000 true.
Definition lineQ : CartItem.t := CartItem.mk "i2" "q" None 1 2000 true.
Definition cart : Cart.t :=
  Cart.mk "c1" (Some "u1") None [lineP; lineQ] [] (Totals.mk 0 0 0 0 0).
Definition db : DB :=
  mkDB (<["p" := Scenario.P]> (<["q" := Scenario.Q]> ∅)) [cart] ∅.
Definition order : Order.t :=
  newOrder Scenario.req cart
    [OrderItem.mk "p" None "Pen" "SKU-P" 1000 2 2000;
     OrderItem.mk "q" None "Quill" "SKU-Q" 2000 1 2000].
End ScenarioSaved.

Module ScenarioCancel.
(** The order made from the scenario cart, still pending; P and Q are at the
    stock left by that order. *)
Definition P : Product.t := Product.mk "Pen" "SKU-P" 1000 3.
Definition Q : Product.t := Product.mk "Quill" "SKU-Q" 2000 0.
Definition order : Order.t := ScenarioRepriced.order.
Definition db : DB :=
  mkDB (<["p" := P]> (<["q" := Q]> ∅)) [Cart.clear Scenario.cart]
       (<["o1" := order]> ∅).
Definition req : CancelOrderReq.t :=
  CancelOrderReq.mk Scenario.alice "o1" (Some "changed my mind").
End ScenarioCancel.

Module ScenarioGuest.
(** A guest-checkout order (no owning user) and an unrelated customer. *)
Definition order : Order.t :=
  Order.mk None (Some "guest@example.com")
    [OrderItem.mk "p" None "Pen" "SKU-P" 1000 2 2000]
    "1 Main St" "1 Main St" "card" "standard"
    (Totals.mk 2000 0 0 0 2000) None [] "pending"
    [StatusEntry.mk "pending" "Order created"].
Definition db : DB :=
  mkDB (<["p" := ScenarioCancel.P]> ∅) [] (<["o2" := order]> ∅).
Definition mallory : User.t := User.mk "u9" "mallory@example.com" "customer".
Definition req : CancelOrderReq.t := CancelOrderReq.mk mallory "o2" None.
(** The same order, owned by Alice. *)
Definition owned : Order.t :=
  Order.mk (Some "u1") (Some "alice@example.com")
    [OrderItem.mk "p" None "Pen" "SKU-P" 1000 2 2000]
    "1 Main St" "1 Main St" "card" "standard"
    (Totals.mk 2000 0 0 0 2000) None [] "pending"
    [StatusEntry.mk "pending" "Order created"].
Definition dbOwned : DB :=
  mkDB (<["p" := ScenarioCancel.P]> ∅) [] (<["o2" := owned]> ∅).
End ScenarioGuest.

Module ScenarioReopen.
Definition order : Order.t :=
  Order.transition "cancelled"
    (StatusEntry.mk "cancelled" "Order cancelled by user") ScenarioGuest.owned.
Definition db : DB :=
  mkDB (<["p" := Scenario.P]> ∅) [] (<["o2" := order]> ∅).
Definition req : UpdateOrderStatusReq.t :=
  UpdateOrderStatusReq.mk "o2" "pending" None.
End ScenarioReopen.

Module ScenarioCart.
(** Totals of the unsaved lines, with no discount, tax or shipping: the
    instance of [recalculateTotals] used in the examples. *)
Definition subtotalOf (items : list CartItem.t) : Z :=
  foldr (fun item acc =>
           if CartItem.savedForLater item then acc
           else CartItem.price item * CartItem.quantity item + acc) 0 items.
Definition recalculateTotals (c : Cart.t) : Cart.t :=
  Cart.setTotals
    (Totals.mk (subtotalOf (Cart.items c)) 0 0 0 (subtotalOf (Cart.items c))) c.
(** Remove the first line and save it for later, in one call. *)
Definition reqFirst : UpdateCartItemReq.t :=
  UpdateCartItemReq.mk (Some Scenario.alice) None "i1" (Some 0) (Some true).
(** The same on the last line. *)
Definition reqLast : UpdateCartItemReq.t :=
  UpdateCartItemReq.mk (Some Scenario.alice) None "i2" (Some 0) (Some true).
End ScenarioCart.

Module ScenarioDuplicate.
(** Two lines of one cart reference the same product through two variants
    (as [addToCart] produces when the same product is added with two
    different variant ids); each asks for 3 of the 5 units in stock. *)
Definition line1 : CartItem.t := CartItem.mk "i1" "p" (Some "v1") 3 1000 false.
Definition line2 : CartItem.t := CartItem.mk "i2" "p" (Some "v2") 3 1000 false.
Definition cart : Cart.t :=
  Cart.mk "c1" (Some "u1") None [line1; line2] [] (Totals.mk 6000 0 0 0 6000).
Definition db : DB := mkDB (<["p" := Scenario.P]> ∅) [cart] ∅.
End ScenarioDuplicate.


(** * Vocabulary of the further properties *)

(** [recalculateTotals] rewrites the cached totals of the cart and nothing
    else. *)
Definition totalsOnly (recalculateTotals : Cart.t -> Cart.t) : Prop :=
  forall c,
    recalculateTotals c = Cart.setTotals (Cart.totals (recalculateTotals c)) c.

(** The error an outcome carries, if any. *)
Definition thrown {A} (o : Outcome A) : option Error :=
  match o with
  | Ok _ => None
  | Throw e => Some e
  end.

(** A call of one of the five cart handlers. *)
Inductive CartCall :=
| CallGetCart (req : GetCartReq.t)
| CallAddToCart (env : Env) (ids : NewIds) (req : AddToCartReq.t)
| CallUpdateCartItem (env : Env) (req : UpdateCartItemReq.t)
| CallRemoveFromCart (env : Env) (req : RemoveFromCartReq.t)
| CallClearCart (env : Env) (req : ClearCartReq.t).

(** The identity a cart call carries. *)
Definition callerOf (call : CartCall) : option Query :=
  match call with
  | CallGetCart req => resolved (GetCartReq.user req) (GetCartReq.sessionId req)
  | CallAddToCart _ _ req =>
      resolved (AddToCartReq.user req) (AddToCartReq.sessionId req)
  | CallUpdateCartItem _ req =>
      resolved (UpdateCartItemReq.user req) (UpdateCartItemReq.sessionId req)
  | CallRemoveFromCart _ req =>
      resolved (RemoveFromCartReq.user req) (RemoveFromCartReq.sessionId req)
  | CallClearCart _ req =>
      resolved (ClearCartReq.user req) (ClearCartReq.sessionId req)
  end.

Section CartCalls.

Variable recalculateTotals : Cart.t -> Cart.t.
Variable defaultTotals : Totals.t.
Variable defaultSavedForLater : bool.

(** The database a cart call leaves, and the error it raised, if any. *)
Definition runCartCall (call : CartCall) (db : DB) : DB * option Error :=
  match call with
  | CallGetCart req =>
      let r := getCart req db in (r.1, thrown r.2)
  | CallAddToCart env ids req =>
      let r :=
        addToCart recalculateTotals defaultTotals defaultSavedForLater
          env ids req db in
      (r.1, thrown r.2)
  | CallUpdateCartItem env req =>
      let r := updateCartItem recalculateTotals env req db in (r.1, thrown r.2)
  | CallRemoveFromCart env req =>
      let r := removeFromCart recalculateTotals env req db in (r.1, thrown r.2)
  | CallClearCart env req =>
      let r := clearCart env req db in (r.1, thrown r.2)
  end.

End CartCalls.

(** A call of one of the four order handlers. *)
Inductive OrderCall :=
| CallCreateOrder (env : Env) (req : CreateOrderReq.t)
| CallGetOrderById (req : GetOrderByIdReq.t)
| CallUpdateOrderStatus (env : Env) (req : UpdateOrderStatusReq.t)
| CallCancelOrder (env : Env) (req : CancelOrderReq.t).

(** The database an order call leaves. *)
Definition runOrderCall (call : OrderCall) (db : DB) : DB :=
  match call with
  | CallCreateOrder env req => (createOrder env req db).1
  | CallGetOrderById req => (getOrderById req db).1
  | CallUpdateOrderStatus env req => (updateOrderStatus env req db).1
  | CallCancelOrder env req => (cancelOrder env req db).1
  end.

(** * Scenarios of the further properties *)

Module ScenarioShop.
(** A shop with the two products and no cart yet. *)
Definition db : DB :=
  mkDB (<["p" := Scenario.P]> (<["q" := Scenario.Q]> ∅)) [] ∅.
Definition ids1 : NewIds := mkNewIds "c9" "i8".
Definition ids2 : NewIds := mkNewIds "c10" "i9".
(** Bob has a cart of his own next to Alice's. *)
Definition bobCart : Cart.t :=
  Cart.mk "c2" (Some "u2") None
    [CartItem.mk "i7" "q" None 1 2000 false] [] (Totals.mk 2000 0 0 0 2000).
Definition dbTwoCarts : DB :=
  mkDB (<["p" := Scenario.P]> (<["q" := Scenario.Q]> ∅))
       [Scenario.cart; bobCart] ∅.
(** Alice's pending order and a guest's pending order, side by side. *)
Definition dbTwoOrders : DB :=
  mkDB (<["p" := ScenarioCancel.P]> (<["q" := ScenarioCancel.Q]> ∅)) []
       (<["o1" := ScenarioCancel.order]> (<["o2" := ScenarioGuest.order]> ∅)).
(** Alice asks for four more pens, with two already in her cart. *)
Definition addPens : AddToCartReq.t :=
  AddToCartReq.mk (Some Scenario.alice) None "p" None 4.
Definition removeFirst : RemoveFromCartReq.t :=
  RemoveFromCartReq.mk (Some Scenario.alice) None "i1".
Definition dropFirst : UpdateCartItemReq.t :=
  UpdateCartItemReq.mk (Some Scenario.alice) None "i1" (Some 0) None.
Definition fourPens : UpdateCartItemReq.t :=
  UpdateCartItemReq.mk (Some Scenario.alice) None "i1" (Some 4) None.
Definition clearReq : ClearCartReq.t :=
  ClearCartReq.mk (Some Scenario.alice) None.
End ScenarioShop.

(** * Properties *)

(** ** The handler steps in direct style *)

Lemma resolveQuery_run user sessionId msg db :
  resolveQuery user sessionId msg db =
  (db, match resolved user sessionId with
       | Some q => Ok q
       | None => Throw (ApiError 400 msg)
       end).
Proof.
  unfold resolveQuery, resolved.
  destruct user; [done|]. by destruct (truthy sessionId).
Qed.

Lemma Cart_findOne_run q db :
  Cart_findOne q db = (db, Ok (find (matches q) (carts db))).
Proof. done. Qed.

Lemma find_none_all {A} (f : A -> bool) (l : list A) :
  find f l = None <-> forall x, x ∈ l -> f x = false.
Proof.
  induction l as [|a l IH]; cbn.
  - split; [|done]. intros _ x Hx. by apply elem_of_nil in Hx.
  - destruct (f a) eqn:Ha.
    + split; [done|]. intros H. specialize (H a (list_elem_of_here _ _)). congruence.
    + rewrite IH. split.
      * intros H x Hx. apply elem_of_cons in Hx as [->|Hx]; auto.
      * intros H x Hx. apply H. by apply elem_of_cons; right.
Qed.

Lemma find_some_elem {A} (f : A -> bool) (l : list A) x :
  find f l = Some x -> x ∈ l /\ f x = true.
Proof.
  induction l as [|a l IH]; cbn; [done|].
  destruct (f a) eqn:Ha.
  - intros [= <-]. split; [apply list_elem_of_here | done].
  - intros H. destruct (IH H) as [? ?]. split; [by apply elem_of_cons; right | done].
Qed.

Lemma forallb_elem_of {A} (f : A -> bool) (l : list A) :
  forallb f l = true -> forall x, x ∈ l -> f x = true.
Proof.
  intros H x Hx. rewrite forallb_forall in H. apply H. by apply list_elem_of_In.
Qed.

Lemma validateStock_run items db :
  validateStock items db =
  (db, match find (fun item => negb (inStock (products db) item)) items with
       | None => Ok tt
       | Some item => Throw (InsufficientStockError (stockLabel (products db) item))
       end).
Proof.
  induction items as [|item rest IH]; [done|].
  cbn [validateStock find]. unfold bind, Product_findById.
  unfold inStock at 1.
  destruct (products db !! CartItem.product item) as [p|] eqn:Hp; cbn.
  - destruct (Product.stock p <? CartItem.quantity item); cbn; [|exact IH].
    unfold stockLabel. by rewrite Hp.
  - unfold stockLabel. by rewrite Hp.
Qed.

Lemma inStock_lookup (ps : gmap string Product.t) item :
  inStock ps item = true ->
  exists p, ps !! CartItem.product item = Some p /\
            CartItem.quantity item <= Product.stock p.
Proof.
  unfold inStock. destruct (ps !! CartItem.product item) as [p|]; [|done].
  intros H. exists p. split; [done|].
  apply negb_true_iff, Z.ltb_ge in H. exact H.
Qed.

Lemma orderItems_ok (ps : gmap string Product.t) items :
  (forall item, item ∈ items -> inStock ps item = true) ->
  exists lines,
    mapOutcome orderItem
      (map (fun it => (it, ps !! CartItem.product it)) items) = Ok lines /\
    Forall2 (snapshotOf ps) items lines.
Proof.
  induction items as [|item rest IH]; intros Hall.
  - exists []. split; [done | constructor].
  - destruct IH as (lines & Hmap & Hsnap).
    { intros x Hx. apply Hall. by apply elem_of_cons; right. }
    destruct (inStock_lookup ps item) as (p & Hp & _).
    { apply Hall, list_elem_of_here. }
    eexists (_ :: lines). split.
    + cbn [map mapOutcome]. unfold orderItem at 1. cbn [fst snd].
      rewrite Hp, Hmap. reflexivity.
    + constructor; [|done]. exists p. done.
Qed.

Lemma orderItems_inv (ps : gmap string Product.t) items lines :
  mapOutcome orderItem (map (fun it => (it, ps !! CartItem.product it)) items)
    = Ok lines ->
  Forall2 (snapshotOf ps) items lines.
Proof.
  revert lines. induction items as [|item rest IH]; intros lines.
  - cbn. intros [= <-]. constructor.
  - cbn [map mapOutcome]. unfold orderItem at 1. cbn [fst snd].
    destruct (ps !! CartItem.product item) as [p|] eqn:Hp; [|done].
    destruct (mapOutcome orderItem _) as [lines'|]; [|done].
    intros [= <-]. constructor; [|by apply IH]. by exists p.
Qed.

Lemma orderItem_not_api_error line code msg :
  orderItem line <> Throw (ApiError code msg).
Proof. unfold orderItem. by destruct (line.2). Qed.

Lemma mapOutcome_orderItem_not_persistence lines op :
  mapOutcome orderItem lines <> Throw (PersistenceError op).
Proof.
  induction lines as [|line rest IH]; [done|].
  cbn [mapOutcome]. unfold orderItem at 1.
  destruct (line.2); [|done].
  destruct (mapOutcome orderItem rest) as [ls|e'] eqn:Hr; [done|].
  intros [= ->]. by apply IH.
Qed.

Lemma mapOutcome_orderItem_not_api_error lines code msg :
  mapOutcome orderItem lines <> Throw (ApiError code msg).
Proof.
  induction lines as [|line rest IH]; [done|].
  cbn [mapOutcome].
  destruct (orderItem line) as [l|e] eqn:Hl.
  - destruct (mapOutcome orderItem rest) as [ls|e'] eqn:Hr; [done|].
    intros [= ->]. by apply IH.
  - intros [= ->]. by apply (orderItem_not_api_error line code msg).
Qed.

Lemma find_first {A} (f : A -> bool) (l : list A) x :
  find f l = Some x ->
  exists k,
    l !! k = Some x /\ f x = true /\
    forall j y, (j < k)%nat -> l !! j = Some y -> f y = false.
Proof.
  induction l as [|a l IH]; cbn [find]; [done|].
  destruct (f a) eqn:Ha.
  - intros [= <-]. exists 0%nat. split; [done|]. split; [done|]. lia.
  - intros Hfind. destruct (IH Hfind) as (k & Hk & Hx & Hbefore).
    exists (S k). split; [done|]. split; [done|].
    intros [|j] y Hj; cbn; [by intros [= <-]|].
    apply Hbefore. lia.
Qed.

(** ** Stock updates *)

Lemma incStock_zero p : Product.incStock 0 p = p.
Proof. destruct p. unfold Product.incStock; cbn. f_equal. lia. Qed.

Lemma incStock_incStock a b p :
  Product.incStock b (Product.incStock a p) = Product.incStock (a + b) p.
Proof. unfold Product.incStock; cbn. f_equal. lia. Qed.

Lemma setProducts_id db : setProducts (products db) db = db.
Proof. by destruct db. Qed.

Lemma applyIncs_cons u updates (ps : gmap string Product.t) :
  applyIncs (u :: updates) ps = applyIncs updates (incStockOf u.1 u.2 ps).
Proof. done. Qed.

Lemma applyIncs_lookup updates (ps : gmap string Product.t) id :
  applyIncs updates ps !! id =
  Product.incStock (totalDelta id updates) <$> ps !! id.
Proof.
  revert ps. induction updates as [|[id' d] rest IH]; intros ps.
  - cbn. destruct (ps !! id) as [p|]; cbn; [|done]. by rewrite incStock_zero.
  - rewrite applyIncs_cons, IH. cbn [fst snd totalDelta foldr].
    unfold incStockOf. rewrite lookup_alter.
    destruct (String.eqb_spec id' id) as [->|Hne].
    + rewrite decide_True by done.
      destruct (ps !! id) as [p|]; cbn; [|done].
      f_equal. apply incStock_incStock.
    + by rewrite decide_False.
Qed.

Lemma applyIncs_stockOf updates (ps : gmap string Product.t) id :
  stockOf (applyIncs updates ps) id =
  (fun s => s + totalDelta id updates) <$> stockOf ps id.
Proof.
  unfold stockOf. rewrite applyIncs_lookup.
  by destruct (ps !! id).
Qed.

Lemma applyIncs_stock (ps : gmap string Product.t) updates id p' :
  applyIncs updates ps !! id = Some p' ->
  exists p, ps !! id = Some p /\
            Product.stock p' = Product.stock p + totalDelta id updates.
Proof.
  rewrite applyIncs_lookup.
  destruct (ps !! id) as [p|]; [|done].
  intros [= <-]. by exists p.
Qed.

Lemma incStocks_run failAt updates db :
  incStocks failAt updates db =
  match interruptedAt failAt (length updates) with
  | Some k =>
      (setProducts (applyIncs (take k updates) (products db)) db,
       Throw (PersistenceError "product.findByIdAndUpdate"))
  | None => (setProducts (applyIncs updates (products db)) db, Ok tt)
  end.
Proof.
  revert failAt db.
  induction updates as [|[id d] rest IH]; intros failAt db.
  - assert (interruptedAt failAt (length (@nil (string * Z))) = None) as ->.
    { destruct failAt as [k|]; [|done]. cbn. by rewrite decide_False by lia. }
    by destruct db.
  - destruct failAt as [[|k]|]; cbn [incStocks].
    + by destruct db.
    + unfold bind, Product_findByIdAndUpdate_inc, modify.
      rewrite IH. cbn [fmap option_fmap option_map Nat.pred interruptedAt length].
      destruct (decide (k < length rest)%nat);
        [rewrite decide_True by lia | rewrite decide_False by lia]; done.
    + unfold bind, Product_findByIdAndUpdate_inc, modify.
      rewrite IH. done.
Qed.

Lemma length_stockDecrements items :
  length (stockDecrements items) = length items.
Proof. apply length_map. Qed.

Lemma totalDelta_stockDecrements id items :
  totalDelta id (stockDecrements items) = - orderedQuantity id items.
Proof.
  induction items as [|item rest IH]; [done|].
  cbn [stockDecrements map totalDelta orderedQuantity foldr fst snd] in *.
  fold (stockDecrements rest). fold (totalDelta id (stockDecrements rest)).
  fold (orderedQuantity id rest). rewrite IH.
  destruct (String.eqb (CartItem.product item) id); lia.
Qed.

Lemma totalDelta_stockRestores id items :
  totalDelta id (stockRestores items) = restoredQuantity id items.
Proof.
  induction items as [|item rest IH]; [done|].
  cbn [stockRestores map totalDelta restoredQuantity foldr fst snd] in *.
  fold (stockRestores rest). fold (totalDelta id (stockRestores rest)).
  fold (restoredQuantity id rest). by rewrite IH.
Qed.

(** ** Order creation *)

Lemma commitOrder_run env cart order db :
  commitOrder env cart order db =
  if orderSaveFails env || bool_decide (is_Some (orders db !! newObjectId env))
  then (db, Throw (PersistenceError "order.save"))
  else
    let os := <[newObjectId env := order]> (orders db) in
    let decs := stockDecrements (Cart.items cart) in
    match interruptedAt (stockUpdateFailsAt env) (length decs) with
    | Some k =>
        (mkDB (applyIncs (take k decs) (products db)) (carts db) os,
         Throw (PersistenceError "product.findByIdAndUpdate"))
    | None =>
        if cartSaveFails env
        then (mkDB (applyIncs decs (products db)) (carts db) os,
              Throw (PersistenceError "cart.save"))
        else (mkDB (applyIncs decs (products db))
                (replaceCart (Cart.clear cart) (carts db)) os,
              Ok order)
    end.
Proof.
  unfold commitOrder, bind at 1, Order_save.
  destruct (orderSaveFails env); [done|]. cbn [orb andb].
  destruct (bool_decide (is_Some (orders db !! newObjectId env))); [done|].
  unfold bind at 1. rewrite incStocks_run. cbn zeta.
  destruct (interruptedAt _ _); [done|].
  unfold bind, Cart_save, ret. by destruct (cartSaveFails env).
Qed.

Lemma commitOrder_ok env cart order db db' order' :
  commitOrder env cart order db = (db', Ok order') ->
  order' = order /\
  products db' = applyIncs (stockDecrements (Cart.items cart)) (products db) /\
  carts db' = replaceCart (Cart.clear cart) (carts db) /\
  orders db' = <[newObjectId env := order]> (orders db).
Proof.
  rewrite commitOrder_run.
  destruct (orderSaveFails env || _); [done|]. cbn zeta.
  destruct (interruptedAt _ _); [done|].
  destruct (cartSaveFails env); [done|].
  by intros [= <- <-].
Qed.

(** Failures of [commitOrder]: a rejected order save changes nothing; after
    it, a rejected stock update or cart save leaves the order stored and the
    decrements made so far in place. *)
Lemma commitOrder_throw env cart order db db' e :
  commitOrder env cart order db = (db', Throw e) ->
  (e = PersistenceError "order.save" /\ db' = db) \/
  (exists k,
      (k <= length (Cart.items cart))%nat /\
      products db' =
        applyIncs (take k (stockDecrements (Cart.items cart))) (products db) /\
      carts db' = carts db /\
      orders db !! newObjectId env = None /\
      orders db' = <[newObjectId env := order]> (orders db) /\
      ((e = PersistenceError "product.findByIdAndUpdate" /\
        stockUpdateFailsAt env = Some k /\ (k < length (Cart.items cart))%nat) \/
       (e = PersistenceError "cart.save" /\
        cartSaveFails env = true /\ k = length (Cart.items cart)))).
Proof.
  rewrite commitOrder_run.
  destruct (orderSaveFails env); [intros [= <- <-]; by left|]. cbn [orb].
  destruct (bool_decide (is_Some (orders db !! newObjectId env))) eqn:Hfree;
    [intros [= <- <-]; by left|].
  apply bool_decide_eq_false, eq_None_not_Some in Hfree.
  cbn zeta. unfold interruptedAt, stockDecrements. rewrite length_map.
  destruct (stockUpdateFailsAt env) as [k|] eqn:Hfail.
  - destruct (decide (k < length (Cart.items cart))%nat) as [Hk|Hk].
    + intros [= <- <-]. right. exists k. cbn.
      split; [lia|]. repeat split; try done. left. done.
    + destruct (cartSaveFails env) eqn:Hcs; [|done].
      intros [= <- <-]. right. exists (length (Cart.items cart)). cbn.
      rewrite firstn_all2 by (rewrite length_map; lia).
      repeat split; try done. right. done.
  - destruct (cartSaveFails env) eqn:Hcs; [|done].
    intros [= <- <-]. right. exists (length (Cart.items cart)). cbn.
    rewrite firstn_all2 by (rewrite length_map; lia).
    repeat split; try done. right. done.
Qed.

Lemma commitOrder_not_empty_cart env cart order db :
  (commitOrder env cart order db).2 <> Throw EmptyCartError.
Proof.
  rewrite commitOrder_run.
  destruct (orderSaveFails env || _); [done|]. cbn zeta.
  destruct (interruptedAt _ _); [done|].
  by destruct (cartSaveFails env).
Qed.

(** [createOrder] in direct style: the checks in the order the handler makes
    them, then [commitOrder]. *)
Lemma createOrder_run env req db :
  createOrder env req db =
  match resolved (CreateOrderReq.user req) (CreateOrderReq.sessionId req) with
  | None => (db, Throw (ApiError 400 "Session ID is required for guest checkout"))
  | Some q =>
      match find (matches q) (carts db) with
      | None => (db, Throw EmptyCartError)
      | Some cart =>
          match Cart.items cart with
          | [] => (db, Throw EmptyCartError)
          | _ :: _ =>
              match find (fun item => negb (inStock (products db) item))
                      (Cart.items cart) with
              | Some offender =>
                  (db, Throw (InsufficientStockError
                                (stockLabel (products db) offender)))
              | None =>
                  match mapOutcome orderItem (populate (products db) cart) with
                  | Throw e => (db, Throw e)
                  | Ok lines => commitOrder env cart (newOrder req cart lines) db
                  end
              end
          end
      end
  end.
Proof.
  unfold createOrder, bind at 1. rewrite resolveQuery_run.
  destruct (resolved _ _) as [q|]; [|done].
  unfold bind at 1, Cart_findOne_populated.
  destruct (find (matches q) (carts db)) as [cart|]; [|done].
  cbn [fmap option_fmap option_map].
  destruct (Cart.items cart) as [|i0 rest] eqn:Hitems; [done|].
  cbn [length Nat.eqb]. unfold bind at 1. rewrite validateStock_run.
  destruct (find _ (i0 :: rest)); [done|].
  unfold bind at 1, liftOutcome.
  destruct (mapOutcome orderItem (populate (products db) cart)); [|done].
  by rewrite <- Hitems.
Qed.

Lemma createOrder_checked env req db q cart lines :
  resolved (CreateOrderReq.user req) (CreateOrderReq.sessionId req) = Some q ->
  find (matches q) (carts db) = Some cart ->
  Cart.items cart <> [] ->
  (forall item, item ∈ Cart.items cart -> inStock (products db) item = true) ->
  mapOutcome orderItem (populate (products db) cart) = Ok lines ->
  createOrder env req db = commitOrder env cart (newOrder req cart lines) db.
Proof.
  intros Hq Hfind Hne Hall Hmap.
  unfold createOrder, bind at 1. rewrite resolveQuery_run, Hq.
  unfold bind at 1, Cart_findOne_populated. rewrite Hfind. cbn [fmap option_fmap option_map].
  destruct (Cart.items cart) as [|i0 rest] eqn:Hitems; [done|].
  cbn [length Nat.eqb]. unfold bind at 1. rewrite validateStock_run.
  assert (find (fun item => negb (inStock (products db) item)) (i0 :: rest) = None)
    as ->.
  { apply find_none_all. intros x Hx. by rewrite (Hall x Hx). }
  unfold bind at 1, liftOutcome. rewrite Hmap. rewrite <- Hitems. reflexivity.
Qed.

(** Every successful [createOrder] went through a resolved, non-empty cart
    whose lines all passed the stock check. *)
Lemma createOrder_ok_inv env req db db' order :
  createOrder env req db = (db', Ok order) ->
  exists q cart lines,
    resolved (CreateOrderReq.user req) (CreateOrderReq.sessionId req) = Some q /\
    find (matches q) (carts db) = Some cart /\
    Cart.items cart <> [] /\
    forallb (inStock (products db)) (Cart.items cart) = true /\
    Forall2 (snapshotOf (products db)) (Cart.items cart) lines /\
    commitOrder env cart (newOrder req cart lines) db = (db', Ok order).
Proof.
  rewrite createOrder_run.
  destruct (resolved _ _) as [q|]; [|done].
  destruct (find (matches q) (carts db)) as [cart|] eqn:Hfind; [|done].
  destruct (Cart.items cart) as [|i0 rest] eqn:Hitems; [done|].
  destruct (find _ (i0 :: rest)) eqn:Hshort; [done|].
  destruct (mapOutcome orderItem (populate (products db) cart))
    as [lines|] eqn:Hmap; [|done].
  intros Hrun. exists q, cart, lines. rewrite Hitems.
  repeat split; try done.
  - apply forallb_forall. intros x Hx. apply list_elem_of_In in Hx.
    pose proof (proj1 (find_none_all _ _) Hshort x Hx) as Hok.
    by apply negb_false_iff in Hok.
  - rewrite <- Hitems. apply orderItems_inv.
    unfold populate in Hmap. exact Hmap.
Qed.

Lemma matches_clear q cart : matches q (Cart.clear cart) = matches q cart.
Proof. by destruct q. Qed.

Lemma find_replaceCart f c c' cs :
  find f cs = Some c ->
  f c' = true ->
  Cart._id c' = Cart._id c ->
  find f (replaceCart c' cs) = Some c'.
Proof.
  intros Hfind Hf Hid. induction cs as [|a cs IH]; [done|].
  cbn [replaceCart map find] in *. fold (replaceCart c' cs).
  destruct (f a) eqn:Ha.
  - injection Hfind as ->. rewrite Hid, String.eqb_refl. by rewrite Hf.
  - destruct (String.eqb (Cart._id a) (Cart._id c')).
    + by rewrite Hf.
    + rewrite Ha. by apply IH.
Qed.

(** ** Status update and cancellation *)

Lemma updateOrderStatus_run env req db :
  updateOrderStatus env req db =
  match orders db !! UpdateOrderStatusReq.id req with
  | None => (db, Throw (ApiError 404 "Order not found"))
  | Some order =>
      if orderSaveFails env
      then (db, Throw (PersistenceError "order.save"))
      else (setOrders (<[UpdateOrderStatusReq.id req := statusUpdated req order]>
                         (orders db)) db,
            Ok (statusUpdated req order))
  end.
Proof.
  unfold updateOrderStatus, bind at 1, Order_findById.
  destruct (orders db !! UpdateOrderStatusReq.id req) as [order|]; [|done].
  unfold bind, Order_save. cbn [andb].
  by destruct (orderSaveFails env).
Qed.

Lemma cancelOrder_run env req db :
  cancelOrder env req db =
  match orders db !! CancelOrderReq.id req with
  | None => (db, Throw (ApiError 404 "Order not found"))
  | Some order =>
      if notAuthorized (CancelOrderReq.user req) order
      then (db, Throw ForbiddenError)
      else if negb (cancellable (Order.status order))
      then (db, Throw InvalidTransitionError)
      else if orderSaveFails env
      then (db, Throw (PersistenceError "order.save"))
      else
        let os := <[CancelOrderReq.id req := cancelled req order]> (orders db) in
        let incs := stockRestores (Order.items order) in
        match interruptedAt (stockUpdateFailsAt env) (length incs) with
        | Some k =>
            (mkDB (applyIncs (take k incs) (products db)) (carts db) os,
             Throw (PersistenceError "product.findByIdAndUpdate"))
        | None =>
            (mkDB (applyIncs incs (products db)) (carts db) os,
             Ok (cancelled req order))
        end
  end.
Proof.
  unfold cancelOrder, bind at 1, Order_findById.
  destruct (orders db !! CancelOrderReq.id req) as [order|]; [|done].
  destruct (notAuthorized _ _); [done|].
  destruct (negb (cancellable _)); [done|].
  unfold bind at 1, Order_save. cbn [andb].
  destruct (orderSaveFails env); [done|].
  unfold bind at 1. rewrite incStocks_run. cbn zeta.
  cbn [Order.transition Order.items].
  by destruct (interruptedAt _ _).
Qed.

Lemma cancellable_iff status :
  cancellable status = true <-> status = "pending" \/ status = "processing".
Proof.
  unfold cancellable. cbn [existsb].
  rewrite !orb_true_iff, !String.eqb_eq. intuition discriminate.
Qed.

Lemma notAuthorized_transition requester s e order :
  notAuthorized requester (Order.transition s e order)
  = notAuthorized requester order.
Proof. done. Qed.

(** ** Cart update *)

Lemma findIndex_lookup {A} (f : A -> bool) (l : list A) i :
  findIndex f l = Some i ->
  exists x, l !! i = Some x /\ f x = true.
Proof.
  revert i. induction l as [|a l IH]; intros i; cbn [findIndex]; [done|].
  destruct (f a) eqn:Ha.
  - intros [= <-]. by exists a.
  - destruct (findIndex f l) as [j|]; cbn; [|done].
    intros [= <-]. by apply IH.
Qed.

(** ** Claim C1: stock never negative *)

(** C1, evaluated at the failing input.  Each of the two lines passes the
    per-line stock check (3 <= 5), the order is created, and both decrements
    are applied: the stock of the product goes from 5 to -1. *)
Theorem createOrder_duplicate_lines_oversell :
  stockOf (products ScenarioDuplicate.db) "p" = Some 5 /\
  forallb (inStock (products ScenarioDuplicate.db))
    (Cart.items ScenarioDuplicate.cart) = true /\
  exists order db',
    createOrder Scenario.env Scenario.req ScenarioDuplicate.db = (db', Ok order) /\
    stockOf (products db') "p" = Some (-1).
Proof.
  split; [reflexivity|]. split; [reflexivity|].
  eexists _, _. split; vm_compute; reflexivity.
Qed.

(** *** Sequences of [createOrder] and [cancelOrder]

    Stock does stay non-negative along every sequence of the two operations,
    in any environment, as long as no cart holds two lines for one product. *)

Lemma orderedQuantity_absent id (items : list CartItem.t) :
  id ∉ (CartItem.product <$> items) -> orderedQuantity id items = 0.
Proof.
  induction items as [|item rest IH]; [done|].
  cbn [fmap list_fmap]. rewrite not_elem_of_cons. intros [Hne Hrest].
  cbn [orderedQuantity foldr]. fold (orderedQuantity id rest).
  destruct (String.eqb_spec (CartItem.product item) id) as [Heq|_]; [done|].
  by apply IH.
Qed.

Lemma orderedQuantity_le (ps : gmap string Product.t) id p items :
  NoDup (CartItem.product <$> items) ->
  (forall item, item ∈ items -> inStock ps item = true) ->
  ps !! id = Some p ->
  0 <= Product.stock p ->
  orderedQuantity id items <= Product.stock p.
Proof.
  intros Hnodup Hall Hp Hpos.
  induction items as [|item rest IH]; [done|].
  cbn [fmap list_fmap] in Hnodup. apply NoDup_cons in Hnodup as [Hfresh Hnodup].
  cbn [orderedQuantity foldr]. fold (orderedQuantity id rest).
  destruct (String.eqb_spec (CartItem.product item) id) as [Heq|_].
  - rewrite orderedQuantity_absent by (by rewrite <- Heq).
    destruct (inStock_lookup ps item) as (p' & Hp' & Hle).
    { apply Hall, list_elem_of_here. }
    rewrite Heq, Hp in Hp'. injection Hp' as <-. lia.
  - apply IH; [done|]. intros x Hx. apply Hall. by apply elem_of_cons; right.
Qed.

Lemma restoredQuantity_nonneg id (items : list OrderItem.t) :
  (forall line, line ∈ items -> 0 <= OrderItem.quantity line) ->
  0 <= restoredQuantity id items.
Proof.
  induction items as [|line rest IH]; intros Hall; [done|].
  cbn [restoredQuantity foldr]. fold (restoredQuantity id rest).
  assert (0 <= OrderItem.quantity line) by apply Hall, list_elem_of_here.
  assert (0 <= restoredQuantity id rest).
  { apply IH. intros x Hx. apply Hall. by apply elem_of_cons; right. }
  destruct (String.eqb _ _); lia.
Qed.

Lemma elem_of_replaceCart c c' cs :
  c' ∈ replaceCart c cs -> c' = c \/ c' ∈ cs.
Proof.
  induction cs as [|a cs IH]; cbn [replaceCart map]; [by right|].
  fold (replaceCart c cs). rewrite !elem_of_cons.
  intros [->|Hin].
  - destruct (String.eqb _ _); auto.
  - destruct (IH Hin); auto.
Qed.

Lemma snapshot_quantities (ps : gmap string Product.t) items lines :
  Forall2 (snapshotOf ps) items lines ->
  (forall item, item ∈ items -> 0 <= CartItem.quantity item) ->
  forall line, line ∈ lines -> 0 <= OrderItem.quantity line.
Proof.
  induction 1 as [|item line items lines (p & _ & ->) _ IH]; intros Hall l Hl.
  - by apply elem_of_nil in Hl.
  - apply elem_of_cons in Hl as [->|Hl].
    + cbn. apply Hall, list_elem_of_here.
    + apply IH; [|done]. intros x Hx. apply Hall. by apply elem_of_cons; right.
Qed.

(** What a run of [createOrder] can have done to the database. *)
Lemma createOrder_effect env req db :
  (createOrder env req db).1 = db \/
  exists q cart lines k,
    find (matches q) (carts db) = Some cart /\
    forallb (inStock (products db)) (Cart.items cart) = true /\
    Forall2 (snapshotOf (products db)) (Cart.items cart) lines /\
    products (createOrder env req db).1 =
      applyIncs (stockDecrements (take k (Cart.items cart))) (products db) /\
    orders (createOrder env req db).1 =
      <[newObjectId env := newOrder req cart lines]> (orders db) /\
    (carts (createOrder env req db).1 = carts db \/
     carts (createOrder env req db).1 = replaceCart (Cart.clear cart) (carts db)).
Proof.
  rewrite createOrder_run.
  destruct (resolved _ _) as [q|]; [|by left].
  destruct (find (matches q) (carts db)) as [cart|] eqn:Hfind; [|by left].
  destruct (Cart.items cart) as [|i0 rest] eqn:Hitems; [by left|].
  destruct (find _ (i0 :: rest)) eqn:Hshort; [by left|].
  destruct (mapOutcome orderItem (populate (products db) cart))
    as [lines|] eqn:Hmap; [|by left].
  rewrite commitOrder_run.
  destruct (orderSaveFails env || _); [by left|].
  right. exists q, cart, lines.
  assert (Hstock : forallb (inStock (products db)) (i0 :: rest) = true).
  { apply forallb_forall. intros x Hx. apply list_elem_of_In in Hx.
    pose proof (proj1 (find_none_all _ _) Hshort x Hx) as Hok.
    by apply negb_false_iff in Hok. }
  assert (Hsnap : Forall2 (snapshotOf (products db)) (i0 :: rest) lines).
  { rewrite <- Hitems. by apply orderItems_inv. }
  cbn zeta. rewrite Hitems.
  destruct (interruptedAt _ _) as [k|].
  - exists k. cbn [fst products carts orders].
    unfold stockDecrements at 2. rewrite <- firstn_map. auto 10.
  - exists (length (i0 :: rest)). rewrite firstn_all.
    destruct (cartSaveFails env); cbn [fst products carts orders]; auto 10.
Qed.

(** What a run of [cancelOrder] can have done to the database. *)
Lemma cancelOrder_effect env req db :
  (cancelOrder env req db).1 = db \/
  exists order k,
    orders db !! CancelOrderReq.id req = Some order /\
    products (cancelOrder env req db).1 =
      applyIncs (stockRestores (take k (Order.items order))) (products db) /\
    carts (cancelOrder env req db).1 = carts db /\
    orders (cancelOrder env req db).1 =
      <[CancelOrderReq.id req := cancelled req order]> (orders db).
Proof.
  rewrite cancelOrder_run.
  destruct (orders db !! CancelOrderReq.id req) as [order|]; [|by left].
  destruct (notAuthorized _ _); [by left|].
  destruct (negb (cancellable _)); [by left|].
  destruct (orderSaveFails env); [by left|].
  right. exists order. cbn zeta.
  destruct (interruptedAt _ _) as [k|].
  - exists k. cbn [fst products carts orders].
    unfold stockRestores at 2. rewrite <- firstn_map. auto.
  - exists (length (Order.items order)). rewrite firstn_all.
    cbn [fst products carts orders]. auto.
Qed.

Lemma step_consistent db db' : consistent db -> step db db' -> consistent db'.
Proof.
  intros [Hstock Hcq Hcn Hoq] Hstep. destruct Hstep as [env req db|env req db].
  - destruct (createOrder_effect env req db) as [->|Heff]; [done|].
    destruct Heff as (q & cart & lines & k & Hfind & Hin & Hsnap & Hps & Hos & Hcs).
    apply find_some_elem in Hfind as [Hcart _].
    pose proof (forallb_elem_of _ _ Hin) as Hall.
    split.
    + intros id p'. rewrite Hps. intros Hp'.
      apply applyIncs_stock in Hp' as (p & Hp & ->).
      rewrite totalDelta_stockDecrements.
      assert (orderedQuantity id (take k (Cart.items cart)) <= Product.stock p);
        [|lia].
      apply (orderedQuantity_le (products db)); eauto.
      * rewrite fmap_take. eapply sublist_NoDup; [eauto | apply sublist_take].
      * intros item Hitem. apply Hall. by apply (subseteq_take k).
    + intros c item Hc. destruct Hcs as [Hcs|Hcs]; rewrite Hcs in Hc; [eauto|].
      apply elem_of_replaceCart in Hc as [->|Hc]; [|eauto].
      cbn. intros Hnil. by apply elem_of_nil in Hnil.
    + intros c Hc. destruct Hcs as [Hcs|Hcs]; rewrite Hcs in Hc; [eauto|].
      apply elem_of_replaceCart in Hc as [->|Hc]; [|eauto].
      cbn. constructor.
    + intros id order line. rewrite Hos.
      intros [[_ <-]|[_ Hold]]%lookup_insert_Some; [|eauto].
      cbn [newOrder Order.items]. eapply snapshot_quantities; eauto.
  - destruct (cancelOrder_effect env req db) as [->|Heff]; [done|].
    destruct Heff as (order & k & Horder & Hps & Hcs & Hos).
    split.
    + intros id p'. rewrite Hps. intros Hp'.
      apply applyIncs_stock in Hp' as (p & Hp & ->).
      rewrite totalDelta_stockRestores.
      assert (0 <= restoredQuantity id (take k (Order.items order))).
      { apply restoredQuantity_nonneg. intros line Hline.
        apply (Hoq _ _ _ Horder). by apply (subseteq_take k). }
      specialize (Hstock _ _ Hp). lia.
    + rewrite Hcs. eauto.
    + rewrite Hcs. eauto.
    + intros id order' line. rewrite Hos.
      intros [[_ <-]|[_ Hold]]%lookup_insert_Some; [|eauto].
      cbn. eauto.
Qed.

(** Along every sequence of [createOrder] and [cancelOrder] runs, succeeding
    or failing, in any environment, a database whose stock is non-negative and
    whose carts hold at most one line per product keeps its stock
    non-negative. *)
Theorem stock_nonneg_preserved db db' :
  consistent db -> rtc step db db' -> consistent db'.
Proof.
  intros Hc Hsteps. induction Hsteps as [|db mid db' Hstep _ IH]; [done|].
  apply IH. by eapply step_consistent.
Qed.

(** ** Claim C2: failures of [createOrder] *)

(** C2, counterexample: when the final [cart.save()] is rejected, the error
    surfaces with the stock of P and Q already decremented. *)
Lemma createOrder_no_rollback :
  ~ claimed_atomic ScenarioCartSaveRejected.env Scenario.req Scenario.db.
Proof.
  intros H.
  destruct (createOrder ScenarioCartSaveRejected.env Scenario.req Scenario.db)
    as [db' [order|e]] eqn:E; vm_compute in E; [discriminate|].
  injection E as <- <-.
  destruct (H _ _ eq_refl) as [Hps _].
  apply (f_equal (fun ps => stockOf ps "p")) in Hps.
  vm_compute in Hps. discriminate Hps.
Qed.

(** C2, amended.  In every execution of [createOrder] that raises an error the
    stored cart is unchanged.  When the error is raised no later than the order
    save (no identity, empty cart, insufficient stock, order save rejected) the
    whole database is unchanged.  Nothing is rolled back afterwards: an error
    of a stock update or of the cart save surfaces with the order stored and
    the decrements made so far (the first [k] lines; all of them for the cart
    save) applied; and this is what happens whenever the cart passes the
    checks, the order is saved, and one of those later writes is rejected. *)
Theorem createOrder_failure env req db :
  (forall db' e,
      createOrder env req db = (db', Throw e) ->
      carts db' = carts db /\
      (e <> PersistenceError "product.findByIdAndUpdate" ->
       e <> PersistenceError "cart.save" ->
       db' = db) /\
      (e = PersistenceError "product.findByIdAndUpdate" \/
       e = PersistenceError "cart.save" ->
       exists q cart lines k,
         resolved (CreateOrderReq.user req) (CreateOrderReq.sessionId req)
           = Some q /\
         find (matches q) (carts db) = Some cart /\
         (k <= length (Cart.items cart))%nat /\
         orders db !! newObjectId env = None /\
         orders db' = <[newObjectId env := newOrder req cart lines]> (orders db) /\
         products db' =
           applyIncs (take k (stockDecrements (Cart.items cart))) (products db) /\
         ((e = PersistenceError "product.findByIdAndUpdate" /\
           stockUpdateFailsAt env = Some k /\
           (k < length (Cart.items cart))%nat) \/
          (e = PersistenceError "cart.save" /\
           cartSaveFails env = true /\ k = length (Cart.items cart))))) /\
  (forall q cart,
      resolved (CreateOrderReq.user req) (CreateOrderReq.sessionId req) = Some q ->
      find (matches q) (carts db) = Some cart ->
      Cart.items cart <> [] ->
      forallb (inStock (products db)) (Cart.items cart) = true ->
      orderSaveFails env = false ->
      orders db !! newObjectId env = None ->
      exists lines,
        (forall k,
            stockUpdateFailsAt env = Some k ->
            (k < length (Cart.items cart))%nat ->
            createOrder env req db =
            (mkDB
               (applyIncs (take k (stockDecrements (Cart.items cart)))
                  (products db))
               (carts db)
               (<[newObjectId env := newOrder req cart lines]> (orders db)),
             Throw (PersistenceError "product.findByIdAndUpdate"))) /\
        (interruptedAt (stockUpdateFailsAt env) (length (Cart.items cart)) = None ->
         cartSaveFails env = true ->
         createOrder env req db =
         (mkDB
            (applyIncs (stockDecrements (Cart.items cart)) (products db))
            (carts db)
            (<[newObjectId env := newOrder req cart lines]> (orders db)),
          Throw (PersistenceError "cart.save")))).
Proof.
  split.
  - intros db' e. rewrite createOrder_run.
    destruct (resolved _ _) as [q|] eqn:Hq;
      [|intros [= <- <-]; split; [done|]; split; [done|]; intros [?|?]; done].
    destruct (find (matches q) (carts db)) as [cart|] eqn:Hfind;
      [|intros [= <- <-]; split; [done|]; split; [done|]; intros [?|?]; done].
    destruct (Cart.items cart) as [|i0 rest] eqn:Hitems;
      [intros [= <- <-]; split; [done|]; split; [done|]; intros [?|?]; done|].
    destruct (find _ (i0 :: rest));
      [intros [= <- <-]; split; [done|]; split; [done|]; intros [?|?]; done|].
    destruct (mapOutcome orderItem (populate (products db) cart)) as [lines|] eqn:Hmap.
    2: { intros [= <- <-]. split; [done|]. split; [done|]. intros [-> | ->].
         - by apply mapOutcome_orderItem_not_persistence in Hmap.
         - by apply mapOutcome_orderItem_not_persistence in Hmap. }
    intros Hrun. apply commitOrder_throw in Hrun as [[-> ->]|Hlate].
    { split; [done|]. split; [done|]. intros [?|?]; done. }
    destruct Hlate as (k & Hk & Hps & Hcs & Hfree & Hos & He).
    split; [done|]. split.
    + intros Hne1 Hne2. by destruct He as [(-> & _)|(-> & _)].
    + intros _. exists q, cart, lines, k. rewrite Hitems in *. done.
  - intros q cart Hq Hfind Hne Hstock Hsave Hfree.
    pose proof (forallb_elem_of _ _ Hstock) as Hall.
    destruct (orderItems_ok (products db) (Cart.items cart) Hall)
      as (lines & Hmap & _).
    exists lines.
    rewrite (createOrder_checked env req db q cart lines Hq Hfind Hne Hall Hmap).
    rewrite commitOrder_run, Hsave, Hfree.
    rewrite bool_decide_eq_false_2 by (intros [? ?]; done).
    cbn [orb]. cbn zeta. rewrite length_stockDecrements.
    split.
    + intros k Hfail Hk. unfold interruptedAt. rewrite Hfail.
      by rewrite decide_True.
    + intros Hnone Hcart. by rewrite Hnone, Hcart.
Qed.

Lemma createOrder_failure_witness :
  exists lines,
    let db' :=
      mkDB (applyIncs (stockDecrements (Cart.items Scenario.cart))
              (products Scenario.db))
           (carts Scenario.db)
           (<["o1" := newOrder Scenario.req Scenario.cart lines]> ∅) in
    createOrder ScenarioCartSaveRejected.env Scenario.req Scenario.db
      = (db', Throw (PersistenceError "cart.save")) /\
    carts db' = carts Scenario.db /\
    stockOf (products db') "p" = Some 3 /\
    stockOf (products Scenario.db) "p" = Some 5.
Proof.
  destruct (proj2 (createOrder_failure ScenarioCartSaveRejected.env Scenario.req
                     Scenario.db)
              (ByUser "u1") Scenario.cart)
    as (lines & _ & Hsave);
    [reflexivity | reflexivity | discriminate | reflexivity | reflexivity
    | reflexivity |].
  exists lines. cbn zeta.
  pose proof (Hsave eq_refl eq_refl) as Hrun.
  split; [exact Hrun|].
  split.
  - exact (proj1 (proj1 (createOrder_failure ScenarioCartSaveRejected.env
                           Scenario.req Scenario.db) _ _ Hrun)).
  - split; reflexivity.
Defined.

(** ** Claim C3: insufficient stock *)

(** C3, counterexample: a line whose product document is gone comes before
    the line that is short of stock; the error is raised for the first one and
    names no product. *)
Lemma createOrder_dangling_line_names_no_product :
  ~ claimed_names_offending_product Scenario.env Scenario.req ScenarioDangling.db.
Proof.
  intros H.
  destruct (H (ByUser "u1") ScenarioDangling.cart 2%nat Scenario.lineQ
              ScenarioShort.Q0 eq_refl eq_refl eq_refl eq_refl)
    as (offender & p' & Hin & Hp' & _ & Hrun); [simpl; lia|].
  vm_compute in Hrun. injection Hrun as Hname.
  cbn [Cart.items ScenarioDangling.cart] in Hin.
  apply elem_of_cons in Hin as [->|Hin]; [vm_compute in Hp'; discriminate|].
  apply elem_of_cons in Hin as [->|Hin].
  { vm_compute in Hp'. injection Hp' as <-. discriminate Hname. }
  apply list_elem_of_singleton in Hin as ->.
  vm_compute in Hp'. injection Hp' as <-. discriminate Hname.
Qed.

(** C3, amended.  When some line of the resolved cart asks for more than its
    product has in stock, [createOrder] fails with [InsufficientStockError] and
    the database (the stock of every product, the cart, the orders) is
    unchanged.  The error is raised for the first line, in cart order, that
    fails the stock check: it names the product of that line, which is short
    of stock, or reads "a product" when the product document of that line is
    missing. *)
Theorem createOrder_insufficient_stock env req db q cart i item p :
  resolved (CreateOrderReq.user req) (CreateOrderReq.sessionId req) = Some q ->
  find (matches q) (carts db) = Some cart ->
  Cart.items cart !! i = Some item ->
  products db !! CartItem.product item = Some p ->
  Product.stock p < CartItem.quantity item ->
  exists k offender,
    (k <= i)%nat /\
    Cart.items cart !! k = Some offender /\
    (forall j earlier,
        (j < k)%nat ->
        Cart.items cart !! j = Some earlier ->
        inStock (products db) earlier = true) /\
    match products db !! CartItem.product offender with
    | Some p' =>
        Product.stock p' < CartItem.quantity offender /\
        createOrder env req db
          = (db, Throw (InsufficientStockError (Product.name p')))
    | None =>
        createOrder env req db
          = (db, Throw (InsufficientStockError "a product"))
    end.
Proof.
  intros Hq Hfind Hi Hp Hlt.
  assert (Hshort_i : negb (inStock (products db) item) = true).
  { unfold inStock. rewrite Hp. apply negb_true_iff, negb_false_iff.
    by apply Z.ltb_lt. }
  rewrite createOrder_run, Hq, Hfind.
  destruct (Cart.items cart) as [|i0 rest] eqn:Hitems; [by destruct i|].
  destruct (find (fun item => negb (inStock (products db) item)) (i0 :: rest))
    as [offender|] eqn:Hoff.
  - apply find_first in Hoff as (k & Hk & Hshort & Hbefore).
    exists k, offender. split.
    { destruct (decide (k <= i)%nat) as [|Hgt]; [done|].
      rewrite (Hbefore i item) in Hshort_i; [done | lia | done]. }
    split; [done|]. split.
    { intros j earlier Hj Hearlier.
      apply negb_false_iff. by apply (Hbefore j). }
    unfold stockLabel. apply negb_true_iff in Hshort. unfold inStock in Hshort.
    destruct (products db !! CartItem.product offender) as [p'|]; [|done].
    split; [|done]. by apply negb_false_iff, Z.ltb_lt in Hshort.
  - exfalso.
    assert (Hin : item ∈ i0 :: rest) by (eapply list_elem_of_lookup_2; eauto).
    pose proof (proj1 (find_none_all _ _) Hoff item Hin) as Hok. congruence.
Qed.

Lemma createOrder_insufficient_stock_witness :
  exists k offender,
    (k <= 1)%nat /\
    Cart.items Scenario.cart !! k = Some offender /\
    (forall j earlier,
        (j < k)%nat ->
        Cart.items Scenario.cart !! j = Some earlier ->
        inStock (products ScenarioShort.db) earlier = true) /\
    match products ScenarioShort.db !! CartItem.product offender with
    | Some p' =>
        Product.stock p' < CartItem.quantity offender /\
        createOrder Scenario.env Scenario.req ScenarioShort.db
          = (ScenarioShort.db, Throw (InsufficientStockError (Product.name p')))
    | None =>
        createOrder Scenario.env Scenario.req ScenarioShort.db
          = (ScenarioShort.db, Throw (InsufficientStockError "a product"))
    end.
Proof.
  apply (createOrder_insufficient_stock Scenario.env Scenario.req
           ScenarioShort.db (ByUser "u1") Scenario.cart 1%nat Scenario.lineQ
           ScenarioShort.Q0).
  - reflexivity.
  - reflexivity.
  - reflexivity.
  - reflexivity.
  - simpl. lia.
Defined.

(** The cart with the missing product, evaluated. *)
Example scenario_dangling_line :
  createOrder Scenario.env Scenario.req ScenarioDangling.db =
  (ScenarioDangling.db, Throw (ApiError 400 "Not enough stock for a product")).
Proof. vm_compute. reflexivity. Qed.

Example scenario_out_of_stock :
  createOrder Scenario.env Scenario.req ScenarioShort.db =
  (ScenarioShort.db, Throw (ApiError 400 "Not enough stock for Quill")).
Proof. vm_compute. reflexivity. Qed.

(** ** Claim C4: successful order creation *)

(** C4.  For a non-empty cart all of whose lines pass the stock check, and a
    persistence layer that accepts the writes, [createOrder] succeeds: every
    product's stock goes down by exactly the quantity the cart orders of it,
    the order carries the cart's five cached totals unchanged and is stored,
    and the cart is left with no line, no coupon and all five totals zero. *)
Theorem createOrder_success env req db q cart :
  resolved (CreateOrderReq.user req) (CreateOrderReq.sessionId req) = Some q ->
  find (matches q) (carts db) = Some cart ->
  Cart.items cart <> [] ->
  forallb (inStock (products db)) (Cart.items cart) = true ->
  noFaults env ->
  orders db !! newObjectId env = None ->
  exists order db',
    createOrder env req db = (db', Ok order) /\
    (forall id,
        stockOf (products db') id =
        (fun s => s - orderedQuantity id (Cart.items cart))
          <$> stockOf (products db) id) /\
    Totals.subtotal (Order.totals order) = Totals.subtotal (Cart.totals cart) /\
    Totals.discountTotal (Order.totals order)
      = Totals.discountTotal (Cart.totals cart) /\
    Totals.taxTotal (Order.totals order) = Totals.taxTotal (Cart.totals cart) /\
    Totals.shippingTotal (Order.totals order)
      = Totals.shippingTotal (Cart.totals cart) /\
    Totals.grandTotal (Order.totals order)
      = Totals.grandTotal (Cart.totals cart) /\
    orders db' !! newObjectId env = Some order /\
    exists cart',
      find (matches q) (carts db') = Some cart' /\
      Cart.items cart' = [] /\
      Cart.appliedCoupons cart' = [] /\
      Cart.totals cart' = Totals.mk 0 0 0 0 0.
Proof.
  intros Hq Hfind Hne Hstock (Hos & Hcs & Hst) Hfresh.
  pose proof (forallb_elem_of _ _ Hstock) as Hall.
  destruct (orderItems_ok (products db) (Cart.items cart) Hall)
    as (lines & Hmap & _).
  rewrite (createOrder_checked env req db q cart lines Hq Hfind Hne Hall Hmap).
  rewrite commitOrder_run, Hos, Hcs, Hst, Hfresh.
  rewrite bool_decide_eq_false_2 by (intros [? ?]; done).
  cbn [orb interruptedAt]. cbn zeta.
  eexists _, _. split; [reflexivity|]. cbn [products carts orders].
  split.
  { intros id. rewrite applyIncs_stockOf, totalDelta_stockDecrements.
    destruct (stockOf (products db) id); cbn; [f_equal; lia | done]. }
  do 5 (split; [reflexivity|]).
  split; [apply lookup_insert_eq|].
  exists (Cart.clear cart). split; [|done].
  apply (find_replaceCart _ cart); [done | | done].
  rewrite matches_clear. by apply find_some_elem in Hfind as [_ ?].
Qed.

Lemma createOrder_success_witness :
  exists order db',
    createOrder Scenario.env Scenario.req Scenario.db = (db', Ok order) /\
    (forall id,
        stockOf (products db') id =
        (fun s => s - orderedQuantity id (Cart.items Scenario.cart))
          <$> stockOf (products Scenario.db) id) /\
    Totals.subtotal (Order.totals order) = 4000 /\
    Totals.discountTotal (Order.totals order) = 0 /\
    Totals.taxTotal (Order.totals order) = 0 /\
    Totals.shippingTotal (Order.totals order) = 0 /\
    Totals.grandTotal (Order.totals order) = 4000 /\
    orders db' !! "o1" = Some order /\
    exists cart',
      find (matches (ByUser "u1")) (carts db') = Some cart' /\
      Cart.items cart' = [] /\
      Cart.appliedCoupons cart' = [] /\
      Cart.totals cart' = Totals.mk 0 0 0 0 0.
Proof.
  apply (createOrder_success Scenario.env Scenario.req Scenario.db
           (ByUser "u1") Scenario.cart).
  - reflexivity.
  - reflexivity.
  - discriminate.
  - reflexivity.
  - repeat split; reflexivity.
  - reflexivity.
Defined.

(** The two scenarios of the specification, evaluated. *)
Example scenario_success :
  exists order db',
    createOrder Scenario.env Scenario.req Scenario.db = (db', Ok order) /\
    Totals.grandTotal (Order.totals order) = 4000 /\
    stockOf (products db') "p" = Some 3 /\
    stockOf (products db') "q" = Some 0 /\
    carts db' = [Cart.clear Scenario.cart].
Proof. eexists _, _. repeat split; vm_compute; reflexivity. Qed.

(** ** Claim C5: cancellation by status *)

(** C5.  For a request that passes the ownership check: on an order whose
    status is pending or processing (and with the writes accepted),
    [cancelOrder] sets the status to cancelled, appends one history entry,
    and raises the stock of every product by exactly the quantity the order
    holds of it; any later [cancelOrder] of the same order fails and changes
    nothing, with [InvalidTransitionError] when it passes the ownership check.
    On an order in any other status, [cancelOrder] fails with
    [InvalidTransitionError] and changes nothing. *)
Theorem cancelOrder_by_status env req db order :
  orders db !! CancelOrderReq.id req = Some order ->
  notAuthorized (CancelOrderReq.user req) order = false ->
  (Order.status order = "pending" \/ Order.status order = "processing" ->
   noFaults env ->
   exists order' db',
     cancelOrder env req db = (db', Ok order') /\
     Order.status order' = "cancelled" /\
     Order.statusHistory order' =
       (Order.statusHistory order ++
        [StatusEntry.mk "cancelled"
           (orDefault (CancelOrderReq.reason req) "Order cancelled by user")])%list /\
     Order.items order' = Order.items order /\
     orders db' !! CancelOrderReq.id req = Some order' /\
     (forall id,
         stockOf (products db') id =
         (fun s => s + restoredQuantity id (Order.items order))
           <$> stockOf (products db) id) /\
     (forall env2 req2,
         CancelOrderReq.id req2 = CancelOrderReq.id req ->
         exists e,
           cancelOrder env2 req2 db' = (db', Throw e) /\
           (notAuthorized (CancelOrderReq.user req2) order = false ->
            e = InvalidTransitionError))) /\
  (Order.status order <> "pending" ->
   Order.status order <> "processing" ->
   cancelOrder env req db = (db, Throw InvalidTransitionError)).
Proof.
  intros Hfind Hauth. split.
  - intros Hstatus (Hos & _ & Hst).
    apply cancellable_iff in Hstatus.
    rewrite cancelOrder_run, Hfind, Hauth, Hstatus, Hos, Hst.
    cbn [negb interruptedAt]. cbn zeta.
    eexists _, _. split; [reflexivity|]. cbn [products orders].
    split; [done|]. split; [done|]. split; [done|].
    split; [apply lookup_insert_eq|]. split.
    + intros id. rewrite applyIncs_stockOf, totalDelta_stockRestores.
      by destruct (stockOf (products db) id).
    + intros env2 req2 Hid.
      rewrite cancelOrder_run. cbn [orders]. rewrite Hid, lookup_insert_eq.
      unfold cancelled at 1 2. rewrite notAuthorized_transition.
      destruct (notAuthorized (CancelOrderReq.user req2) order).
      * eexists. split; [reflexivity | done].
      * eexists. split; [reflexivity | done].
  - intros Hp Hq.
    rewrite cancelOrder_run, Hfind, Hauth.
    destruct (cancellable (Order.status order)) eqn:Hc; [|done].
    apply cancellable_iff in Hc as [?|?]; done.
Qed.

Lemma cancelOrder_by_status_witness :
  exists order' db',
    cancelOrder Scenario.env ScenarioCancel.req ScenarioCancel.db
      = (db', Ok order') /\
    Order.status order' = "cancelled" /\
    Order.statusHistory order' =
      [StatusEntry.mk "pending" "Order created";
       StatusEntry.mk "cancelled" "changed my mind"] /\
    Order.items order' = Order.items ScenarioCancel.order /\
    orders db' !! "o1" = Some order' /\
    (forall id,
        stockOf (products db') id =
        (fun s => s + restoredQuantity id (Order.items ScenarioCancel.order))
          <$> stockOf (products ScenarioCancel.db) id) /\
    (forall env2 req2,
        CancelOrderReq.id req2 = "o1" ->
        exists e,
          cancelOrder env2 req2 db' = (db', Throw e) /\
          (notAuthorized (CancelOrderReq.user req2) ScenarioCancel.order = false ->
           e = InvalidTransitionError)).
Proof.
  apply (proj1 (cancelOrder_by_status Scenario.env ScenarioCancel.req
                  ScenarioCancel.db ScenarioCancel.order
                  eq_refl eq_refl)).
  - left. reflexivity.
  - repeat split; reflexivity.
Defined.

Example cancel_restores_scenario_stock :
  exists order' db',
    cancelOrder Scenario.env ScenarioCancel.req ScenarioCancel.db
      = (db', Ok order') /\
    stockOf (products db') "p" = Some 5 /\
    stockOf (products db') "q" = Some 1 /\
    cancelOrder Scenario.env ScenarioCancel.req db'
      = (db', Throw InvalidTransitionError).
Proof. eexists _, _. repeat split; vm_compute; reflexivity. Qed.

(** ** Claim C6: status update of a cancelled order *)

(** C6, counterexample: [updateOrderStatus] moves a cancelled order back to
    pending. *)
Lemma updateOrderStatus_reopens_cancelled :
  ~ claimed_cancelled_is_final Scenario.env ScenarioReopen.req ScenarioReopen.db.
Proof.
  intros H. specialize (H ScenarioReopen.order eq_refl eq_refl).
  vm_compute in H. discriminate H.
Qed.

(** C6, amended.  On every existing order, whatever its current status
    (cancelled included), and with the save accepted, [updateOrderStatus] sets
    the current status to the new status, appends the history entry made of
    the new status and of the note, or of "Status updated to <newStatus>" when
    the note is absent or empty, and stores the order. *)
Theorem updateOrderStatus_sets_status env req db order :
  orders db !! UpdateOrderStatusReq.id req = Some order ->
  orderSaveFails env = false ->
  exists order' db',
    updateOrderStatus env req db = (db', Ok order') /\
    Order.status order' = UpdateOrderStatusReq.status req /\
    Order.statusHistory order' =
      (Order.statusHistory order ++
       [StatusEntry.mk (UpdateOrderStatusReq.status req)
          (match UpdateOrderStatusReq.note req with
           | Some note =>
               if String.eqb note "" 
               then "Status updated to " +:+ UpdateOrderStatusReq.status req
               else note
           | None => "Status updated to " +:+ UpdateOrderStatusReq.status req
           end)])%list /\
    Order.items order' = Order.items order /\
    orders db' = <[UpdateOrderStatusReq.id req := order']> (orders db) /\
    products db' = products db /\
    carts db' = carts db.
Proof.
  intros Hfind Hsave.
  rewrite updateOrderStatus_run, Hfind, Hsave.
  eexists _, _. split; [reflexivity|]. by repeat split.
Qed.

Lemma updateOrderStatus_sets_status_witness :
  exists order' db',
    updateOrderStatus Scenario.env ScenarioReopen.req ScenarioReopen.db
      = (db', Ok order') /\
    Order.status order' = "pending" /\
    Order.statusHistory order' =
      [StatusEntry.mk "pending" "Order created";
       StatusEntry.mk "cancelled" "Order cancelled by user";
       StatusEntry.mk "pending" "Status updated to pending"] /\
    Order.items order' = Order.items ScenarioReopen.order /\
    orders db' = <["o2" := order']> (orders ScenarioReopen.db) /\
    products db' = products ScenarioReopen.db /\
    carts db' = carts ScenarioReopen.db.
Proof.
  apply (updateOrderStatus_sets_status Scenario.env ScenarioReopen.req
           ScenarioReopen.db ScenarioReopen.order); reflexivity.
Defined.

(** ** Claim C7: empty carts and saved-for-later lines *)

(** C7, counterexample: a cart holding only saved-for-later lines is not
    rejected as empty; it is ordered. *)
Lemma createOrder_orders_saved_lines :
  ~ claimed_empty_iff_no_included_line Scenario.env Scenario.req ScenarioSaved.db.
Proof.
  intros H.
  specialize (H (ByUser "u1") ScenarioSaved.cart eq_refl eq_refl).
  destruct H as [_ H]. specialize (H eq_refl).
  vm_compute in H. discriminate H.
Qed.

Lemma createOrder_saved_lines_evaluated :
  exists db',
    createOrder Scenario.env Scenario.req ScenarioSaved.db
      = (db', Ok ScenarioSaved.order) /\
    stockOf (products db') "p" = Some 3 /\
    stockOf (products db') "q" = Some 0.
Proof. eexists. repeat split; vm_compute; reflexivity. Qed.

(** C7, amended.  [createOrder] fails with [EmptyCartError] if and only if the
    caller's identity resolves to a query and either no cart matches it or the
    matching cart has no line item at all.  The "saved for later" flag is not
    consulted: whenever [createOrder] succeeds, every line of the cart, saved
    for later or not, has passed the stock check, has its order line, and has
    had its quantity taken from the stock of its product. *)
Theorem createOrder_empty_cart env req db :
  ((createOrder env req db).2 = Throw EmptyCartError <->
   exists q,
     resolved (CreateOrderReq.user req) (CreateOrderReq.sessionId req) = Some q /\
     (find (matches q) (carts db) = None \/
      exists cart,
        find (matches q) (carts db) = Some cart /\ Cart.items cart = [])) /\
  (forall db' order,
      createOrder env req db = (db', Ok order) ->
      exists q cart,
        resolved (CreateOrderReq.user req) (CreateOrderReq.sessionId req)
          = Some q /\
        find (matches q) (carts db) = Some cart /\
        forallb (inStock (products db)) (Cart.items cart) = true /\
        Forall2 (snapshotOf (products db)) (Cart.items cart) (Order.items order) /\
        forall id,
          stockOf (products db') id =
          (fun s => s - orderedQuantity id (Cart.items cart))
            <$> stockOf (products db) id).
Proof.
  split.
  - rewrite createOrder_run.
    destruct (resolved _ _) as [q|] eqn:Hq.
    2: { split; [done|]. by intros (q & ? & _). }
    destruct (find (matches q) (carts db)) as [cart|] eqn:Hfind.
    2: { split; [|done]. intros _. exists q. auto. }
    destruct (Cart.items cart) as [|i0 rest] eqn:Hitems.
    { split; [|done]. intros _. exists q. split; [done|]. right. by exists cart. }
    split.
    + intros Hempty. exfalso. revert Hempty.
      destruct (find _ (i0 :: rest)); [done|].
      destruct (mapOutcome orderItem (populate (products db) cart)) eqn:Hmap.
      * apply commitOrder_not_empty_cart.
      * cbn. intros [= ->].
        by apply mapOutcome_orderItem_not_api_error in Hmap.
    + intros (q' & [= <-] & [Hnone | (cart' & Hsome & Hnil)]); [congruence|].
      rewrite Hfind in Hsome. injection Hsome as <-. congruence.
  - intros db' order Hrun.
    apply createOrder_ok_inv in Hrun
      as (q & cart & lines & Hq & Hfind & _ & Hstock & Hsnap & Hcommit).
    apply commitOrder_ok in Hcommit as (-> & Hps & _).
    exists q, cart. repeat split; try done.
    intros id. rewrite Hps, applyIncs_stockOf, totalDelta_stockDecrements.
    destruct (stockOf (products db) id); cbn; [f_equal; lia | done].
Qed.

Lemma createOrder_empty_cart_witness :
  (createOrder Scenario.env Scenario.req (mkDB ∅ [] ∅)).2 = Throw EmptyCartError /\
  exists q cart,
    resolved (Some Scenario.alice) None = Some q /\
    find (matches q) (carts ScenarioSaved.db) = Some cart /\
    forallb (inStock (products ScenarioSaved.db)) (Cart.items cart) = true /\
    Forall2 (snapshotOf (products ScenarioSaved.db)) (Cart.items cart)
      (Order.items ScenarioSaved.order) /\
    forall id,
      stockOf
        (products (createOrder Scenario.env Scenario.req ScenarioSaved.db).1) id =
      (fun s => s - orderedQuantity id (Cart.items cart))
        <$> stockOf (products ScenarioSaved.db) id.
Proof.
  split.
  - apply (proj1 (createOrder_empty_cart Scenario.env Scenario.req (mkDB ∅ [] ∅))).
    exists (ByUser "u1"). split; [reflexivity|]. left. reflexivity.
  - apply (proj2 (createOrder_empty_cart Scenario.env Scenario.req ScenarioSaved.db)
             _ ScenarioSaved.order).
    vm_compute. reflexivity.
Defined.

(** ** Claim C8: order line snapshots *)


(** The subtotal of the reading fails too, on its own, once the exact product
    is not a double: with the price unchanged, a line of 94906267 units at
    94906267 gets the subtotal 9007199515875288, one less than the product. *)
Lemma createOrder_subtotal_is_rounded :
  ~ claimed_fresh_snapshot Scenario.env Scenario.req ScenarioHuge.db.
Proof.
  intros H.
  destruct (createOrder Scenario.env Scenario.req ScenarioHuge.db)
    as [db' [order|e]] eqn:E; vm_compute in E; [|discriminate].
  injection E as <- <-.
  specialize (H _ _ eq_refl).
  apply Forall_cons in H as [(p & _ & _ & _ & _ & Hsubtotal) _].
  vm_compute in Hsubtotal. discriminate Hsubtotal.
Qed.


(** Past [2 ^ 53] the product is rounded: an odd exact product is not a
    double. *)
Example jsMul_rounds :
  94906267 * 94906267 = 9007199515875289 /\
  jsMul 94906267 94906267 = Finite 9007199515875288.
Proof. split; vm_compute; reflexivity. Qed.



(** ** Claim C9: who may cancel *)

(** C9, counterexample: a customer who is neither administrator nor owner
    cancels a guest order. *)
Lemma cancelOrder_guest_order_not_forbidden :
  ~ claimed_forbidden Scenario.env ScenarioGuest.req ScenarioGuest.db.
Proof.
  intros H. specialize (H ScenarioGuest.order eq_refl).
  assert (Hstranger : ~ ownerOrAdmin ScenarioGuest.mallory ScenarioGuest.order).
  { intros [Hrole | Howner]; discriminate. }
  specialize (H Hstranger). vm_compute in H. discriminate H.
Qed.

Lemma cancelOrder_guest_order_evaluated :
  exists order' db',
    cancelOrder Scenario.env ScenarioGuest.req ScenarioGuest.db
      = (db', Ok order') /\
    Order.status order' = "cancelled" /\
    stockOf (products db') "p" = Some 5.
Proof. eexists _, _. repeat split; vm_compute; reflexivity. Qed.

(** C9, amended.  On an order that has an owning user, a requester who is
    neither an administrator nor that user is refused with [ForbiddenError]
    and nothing changes.  On an order without owning user (guest checkout) the
    ownership check is skipped: the request is never refused with
    [ForbiddenError]. *)
Theorem cancelOrder_forbidden env req db order :
  orders db !! CancelOrderReq.id req = Some order ->
  (forall owner,
      Order.user order = Some owner ->
      User.role (CancelOrderReq.user req) <> "admin" ->
      owner <> User.id (CancelOrderReq.user req) ->
      cancelOrder env req db = (db, Throw ForbiddenError)) /\
  (Order.user order = None ->
   (cancelOrder env req db).2 <> Throw ForbiddenError).
Proof.
  intros Hfind. split.
  - intros owner Howner Hrole Hne.
    rewrite cancelOrder_run, Hfind. unfold notAuthorized. rewrite Howner.
    apply String.eqb_neq in Hrole, Hne. by rewrite Hrole, Hne.
  - intros Hguest.
    rewrite cancelOrder_run, Hfind. unfold notAuthorized. rewrite Hguest.
    rewrite andb_false_r.
    destruct (negb (cancellable _)); [done|].
    destruct (orderSaveFails env); [done|]. cbn zeta.
    by destruct (interruptedAt _ _).
Qed.

Lemma cancelOrder_forbidden_witness :
  cancelOrder Scenario.env ScenarioGuest.req ScenarioGuest.dbOwned
    = (ScenarioGuest.dbOwned, Throw ForbiddenError) /\
  (cancelOrder Scenario.env ScenarioGuest.req ScenarioGuest.db).2
    <> Throw ForbiddenError.
Proof.
  split.
  - apply (proj1 (cancelOrder_forbidden Scenario.env ScenarioGuest.req
                    ScenarioGuest.dbOwned ScenarioGuest.owned eq_refl) "u1").
    + reflexivity.
    + discriminate.
    + discriminate.
  - apply (proj2 (cancelOrder_forbidden Scenario.env ScenarioGuest.req
                    ScenarioGuest.db ScenarioGuest.order eq_refl)).
    reflexivity.
Defined.

(** ** Claim C10: the stale index of [updateCartItem] *)

(** C10.  An [updateCartItem] call that names an existing line and supplies
    both a quantity [<= 0] and a [savedForLater] value first removes the named
    line, then writes the flag through the index the line had.  When the line
    was the last one, that index is past the end of the list and the write
    raises a [TypeError] (nothing is saved).  Otherwise the index now holds the
    line that followed the named one, and the flag is written onto that other
    line. *)
Theorem updateCartItem_stale_index
    (recalculateTotals : Cart.t -> Cart.t) env req db q cart i quantity flag :
  resolved (UpdateCartItemReq.user req) (UpdateCartItemReq.sessionId req)
    = Some q ->
  find (matches q) (carts db) = Some cart ->
  findIndex (fun item => String.eqb (CartItem._id item) (UpdateCartItemReq.itemId req))
    (Cart.items cart) = Some i ->
  UpdateCartItemReq.quantity req = Some quantity ->
  quantity <= 0 ->
  UpdateCartItemReq.savedForLater req = Some flag ->
  exists named,
    Cart.items cart !! i = Some named /\
    CartItem._id named = UpdateCartItemReq.itemId req /\
    (S i = length (Cart.items cart) ->
     delete i (Cart.items cart) !! i = None /\
     updateCartItem recalculateTotals env req db =
       (db, Throw (TypeError
                     "Cannot set properties of undefined (setting 'savedForLater')"))) /\
    (forall next,
        Cart.items cart !! S i = Some next ->
        delete i (Cart.items cart) !! i = Some next /\
        (NoDup (CartItem._id <$> Cart.items cart) ->
         CartItem._id next <> UpdateCartItemReq.itemId req) /\
        let cart' :=
          recalculateTotals
            (Cart.setItems
               (<[i := CartItem.setSavedForLater flag next]>
                  (delete i (Cart.items cart)))
               cart) in
        updateCartItem recalculateTotals env req db =
          if cartSaveFails env
          then (db, Throw (PersistenceError "cart.save"))
          else (setCarts (replaceCart cart' (carts db)) db,
                Ok (cart', populateSelected (products db) cart'))).
Proof.
  intros Hq Hfind Hidx Hquantity Hle Hflag.
  destruct (findIndex_lookup _ _ _ Hidx) as (named & Hnamed & Hid).
  apply String.eqb_eq in Hid.
  exists named. split; [done|]. split; [done|].
  assert (Hprefix :
    updateCartItem recalculateTotals env req db =
    (let* items2 :=
       applySavedForLater i (Some flag) (delete i (Cart.items cart)) in
     let cart' := recalculateTotals (Cart.setItems items2 cart) in
     Cart_save env cart' ;;
     let* db0 := get in
     ret (cart', populateSelected (products db0) cart'))%handler db).
  { unfold updateCartItem, bind at 1. rewrite resolveQuery_run, Hq.
    unfold bind at 1. rewrite Cart_findOne_run, Hfind, Hidx.
    unfold bind at 1, applyQuantity. rewrite Hquantity.
    apply Z.leb_le in Hle. rewrite Hle. unfold ret at 1. by rewrite Hflag. }
  split.
  - intros Hlast.
    assert (Hoob : delete i (Cart.items cart) !! i = None).
    { rewrite list_lookup_delete_ge by done. apply lookup_ge_None. lia. }
    split; [done|].
    rewrite Hprefix. unfold bind at 1, applySavedForLater. by rewrite Hoob.
  - intros next Hnext.
    assert (Hnow : delete i (Cart.items cart) !! i = Some next).
    { by rewrite list_lookup_delete_ge. }
    split; [done|]. split.
    + intros Hnodup Hsame.
      assert (i = S i); [|lia].
      apply (NoDup_lookup _ _ _ (UpdateCartItemReq.itemId req) Hnodup).
      * by rewrite list_lookup_fmap, Hnamed; cbn; rewrite Hid.
      * by rewrite list_lookup_fmap, Hnext; cbn; rewrite Hsame.
    + cbn zeta. rewrite Hprefix.
      unfold bind at 1, applySavedForLater. rewrite Hnow. unfold ret at 1.
      unfold bind at 1, Cart_save.
      destruct (cartSaveFails env); [done|].
      unfold bind, get, ret. done.
Qed.

Lemma updateCartItem_stale_index_witness :
  (exists named,
      Cart.items Scenario.cart !! 1%nat = Some named /\
      CartItem._id named = "i2" /\
      updateCartItem ScenarioCart.recalculateTotals Scenario.env
        ScenarioCart.reqLast Scenario.db =
      (Scenario.db,
       Throw (TypeError
                "Cannot set properties of undefined (setting 'savedForLater')"))) /\
  (exists named,
      Cart.items Scenario.cart !! 0%nat = Some named /\
      CartItem._id named = "i1" /\
      CartItem._id Scenario.lineQ <> "i1" /\
      updateCartItem ScenarioCart.recalculateTotals Scenario.env
        ScenarioCart.reqFirst Scenario.db =
      (let cart' :=
         Cart.mk "c1" (Some "u1") None
           [CartItem.setSavedForLater true Scenario.lineQ] []
           (Totals.mk 0 0 0 0 0) in
       (mkDB (products Scenario.db) [cart'] ∅,
        Ok (cart', populateSelected (products Scenario.db) cart')))).
Proof.
  split.
  - destruct (updateCartItem_stale_index ScenarioCart.recalculateTotals
                Scenario.env ScenarioCart.reqLast Scenario.db (ByUser "u1")
                Scenario.cart 1%nat 0 true)
      as (named & Hnamed & Hid & Hlast & _);
      [reflexivity | reflexivity | reflexivity | reflexivity | lia
      | reflexivity |].
    exists named. split; [exact Hnamed|]. split; [exact Hid|].
    exact (proj2 (Hlast eq_refl)).
  - destruct (updateCartItem_stale_index ScenarioCart.recalculateTotals
                Scenario.env ScenarioCart.reqFirst Scenario.db (ByUser "u1")
                Scenario.cart 0%nat 0 true)
      as (named & Hnamed & Hid & _ & Hnext);
      [reflexivity | reflexivity | reflexivity | reflexivity | lia
      | reflexivity |].
    exists named. split; [exact Hnamed|]. split; [exact Hid|].
    destruct (Hnext Scenario.lineQ eq_refl) as (_ & Hother & Hrun).
    split.
    + apply Hother. vm_compute.
      repeat constructor; rewrite ?elem_of_cons, ?elem_of_nil; intuition discriminate.
    + exact Hrun.
Defined.

(** * Further properties of the two controllers *)

(** ** The remaining handlers in direct style *)

Lemma clearCart_run env req db :
  clearCart env req db =
  match resolved (ClearCartReq.user req) (ClearCartReq.sessionId req) with
  | None => (db, Throw (ApiError 400 "Session ID is required for guest cart"))
  | Some q =>
      match find (matches q) (carts db) with
      | None => (db, Throw (ApiError 404 "Cart not found"))
      | Some cart =>
          if cartSaveFails env
          then (db, Throw (PersistenceError "cart.save"))
          else (setCarts (replaceCart (Cart.clear cart) (carts db)) db,
                Ok (Cart.clear cart))
      end
  end.
Proof.
  unfold clearCart, bind at 1. rewrite resolveQuery_run.
  destruct (resolved _ _) as [q|]; [|done].
  unfold bind at 1. rewrite Cart_findOne_run.
  destruct (find (matches q) (carts db)) as [cart|]; [|done].
  unfold bind, Cart_save, ret. by destruct (cartSaveFails env).
Qed.

Lemma getOrderById_run req db :
  getOrderById req db =
  (db, match orders db !! GetOrderByIdReq.id req with
       | None => Throw (ApiError 404 "Order not found")
       | Some order =>
           if notAuthorized (GetOrderByIdReq.user req) order
           then Throw (ApiError 403 "You are not authorized to view this order")
           else Ok order
       end).
Proof.
  unfold getOrderById, bind, Order_findById.
  destruct (orders db !! GetOrderByIdReq.id req) as [order|]; [|done].
  by destruct (notAuthorized _ _).
Qed.

Lemma getCart_run req db :
  getCart req db =
  (db, Ok match resolved (GetCartReq.user req) (GetCartReq.sessionId req) with
          | None => CartIsEmpty
          | Some q =>
              match find (matches q) (carts db) with
              | None => CartIsEmpty
              | Some cart =>
                  CartRetrieved cart (populateSelected (products db) cart)
              end
          end).
Proof.
  unfold getCart, resolved, bind at 1.
  destruct (GetCartReq.user req) as [u|].
  - rewrite Cart_findOne_run.
    by destruct (find _ (carts db)).
  - destruct (truthy (GetCartReq.sessionId req)); [|done].
    rewrite Cart_findOne_run. by destruct (find _ (carts db)).
Qed.

Section CartLinesRun.

Variable recalculateTotals : Cart.t -> Cart.t.
Variable defaultTotals : Totals.t.
Variable defaultSavedForLater : bool.

Lemma removeFromCart_run env req db :
  removeFromCart recalculateTotals env req db =
  match
    resolved (RemoveFromCartReq.user req) (RemoveFromCartReq.sessionId req)
  with
  | None => (db, Throw (ApiError 400 "Session ID is required for guest cart"))
  | Some q =>
      match find (matches q) (carts db) with
      | None => (db, Throw (ApiError 404 "Cart not found"))
      | Some cart =>
          let cart' :=
            recalculateTotals
              (Cart.setItems
                 (List.filter
                    (fun item =>
                       negb (String.eqb (CartItem._id item)
                               (RemoveFromCartReq.itemId req)))
                    (Cart.items cart))
                 cart) in
          if cartSaveFails env
          then (db, Throw (PersistenceError "cart.save"))
          else (setCarts (replaceCart cart' (carts db)) db, Ok cart')
      end
  end.
Proof.
  unfold removeFromCart, bind at 1. rewrite resolveQuery_run.
  destruct (resolved _ _) as [q|]; [|done].
  unfold bind at 1. rewrite Cart_findOne_run.
  destruct (find (matches q) (carts db)) as [cart|]; [|done].
  unfold bind, Cart_save, ret. cbn zeta. by destruct (cartSaveFails env).
Qed.

Lemma addToCart_run env ids req db :
  addToCart recalculateTotals defaultTotals defaultSavedForLater env ids req db =
  match products db !! AddToCartReq.productId req with
  | None => (db, Throw (ApiError 404 "Product not found"))
  | Some product =>
      if Product.stock product <? AddToCartReq.quantity req
      then (db, Throw (ApiError 400 "Not enough stock available"))
      else
        match resolved (AddToCartReq.user req) (AddToCartReq.sessionId req) with
        | None =>
            (db, Throw (ApiError 400 "Session ID is required for guest cart"))
        | Some q =>
            let found := find (matches q) (carts db) in
            let cart := default (newCart defaultTotals ids q) found in
            let cart' :=
              recalculateTotals
                (Cart.setItems
                   (addLine defaultSavedForLater ids req product (Cart.items cart))
                   cart) in
            if cartSaveFails env
            then (db, Throw (PersistenceError "cart.save"))
            else
              match found with
              | Some _ =>
                  (setCarts (replaceCart cart' (carts db)) db,
                   Ok (cart', populateSelected (products db) cart'))
              | None =>
                  if existsb
                       (fun c => String.eqb (Cart._id c) (Cart._id cart'))
                       (carts db)
                  then (db, Throw (PersistenceError "cart.save"))
                  else (setCarts (carts db ++ [cart']) db,
                        Ok (cart', populateSelected (products db) cart'))
              end
        end
  end.
Proof.
  unfold addToCart, bind at 1, Product_findById.
  destruct (products db !! AddToCartReq.productId req) as [product|]; [|done].
  destruct (Product.stock product <? AddToCartReq.quantity req); [done|].
  unfold bind at 1. rewrite resolveQuery_run.
  destruct (resolved _ _) as [q|]; [|done].
  unfold bind at 1. rewrite Cart_findOne_run. cbn zeta.
  destruct (find (matches q) (carts db)) as [cart|]; cbn [default].
  - unfold bind, Cart_save, get, ret. by destruct (cartSaveFails env).
  - unfold bind, Cart_saveNew, get, ret.
    destruct (cartSaveFails env); [done|].
    by destruct (existsb _ _).
Qed.

(** [updateCartItem] once the cart and the line are found: the two optional
    updates, then the save. *)
Lemma updateCartItem_found env req db q cart i :
  resolved (UpdateCartItemReq.user req) (UpdateCartItemReq.sessionId req)
    = Some q ->
  find (matches q) (carts db) = Some cart ->
  findIndex
    (fun item => String.eqb (CartItem._id item) (UpdateCartItemReq.itemId req))
    (Cart.items cart) = Some i ->
  updateCartItem recalculateTotals env req db =
  match applyQuantity i (UpdateCartItemReq.quantity req) (Cart.items cart) db with
  | (_, Throw e) => (db, Throw e)
  | (_, Ok items1) =>
      match
        applySavedForLater i (UpdateCartItemReq.savedForLater req) items1 db
      with
      | (_, Throw e) => (db, Throw e)
      | (_, Ok items2) =>
          let cart' := recalculateTotals (Cart.setItems items2 cart) in
          if cartSaveFails env
          then (db, Throw (PersistenceError "cart.save"))
          else (setCarts (replaceCart cart' (carts db)) db,
                Ok (cart', populateSelected (products db) cart'))
      end
  end.
Proof.
  intros Hq Hfind Hidx.
  unfold updateCartItem, bind at 1. rewrite resolveQuery_run, Hq.
  unfold bind at 1. rewrite Cart_findOne_run, Hfind, Hidx.
  assert (Hq1 : forall items,
    (applyQuantity i (UpdateCartItemReq.quantity req) items db).1 = db).
  { intros items. unfold applyQuantity.
    destruct (UpdateCartItemReq.quantity req) as [n|]; [|done].
    destruct (n <=? 0); [done|].
    destruct (items !! i) as [item|]; [|done].
    unfold bind, Product_findById.
    destruct (products db !! CartItem.product item) as [p|]; [|done].
    by destruct (Product.stock p <? n). }
  assert (Hq2 : forall items,
    (applySavedForLater i (UpdateCartItemReq.savedForLater req) items db).1 = db).
  { intros items. unfold applySavedForLater.
    destruct (UpdateCartItemReq.savedForLater req) as [b|]; [|done].
    by destruct (items !! i). }
  unfold bind at 1.
  specialize (Hq1 (Cart.items cart)).
  destruct (applyQuantity _ _ _ db) as [db1 [items1|e]]; cbn in Hq1; subst db1;
    [|done].
  unfold bind at 1.
  specialize (Hq2 items1).
  destruct (applySavedForLater _ _ _ db) as [db2 [items2|e]]; cbn in Hq2;
    subst db2; [|done].
  unfold bind, Cart_save, get, ret. cbn zeta.
  by destruct (cartSaveFails env).
Qed.

Lemma updateCartItem_not_found env req db :
  match
    resolved (UpdateCartItemReq.user req) (UpdateCartItemReq.sessionId req)
  with
  | None =>
      updateCartItem recalculateTotals env req db =
      (db, Throw (ApiError 400 "Session ID is required for guest cart"))
  | Some q =>
      match find (matches q) (carts db) with
      | None =>
          updateCartItem recalculateTotals env req db =
          (db, Throw (ApiError 404 "Cart not found"))
      | Some cart =>
          findIndex
            (fun item =>
               String.eqb (CartItem._id item) (UpdateCartItemReq.itemId req))
            (Cart.items cart) = None ->
          updateCartItem recalculateTotals env req db =
          (db, Throw (ApiError 404 "Item not found in cart"))
      end
  end.
Proof.
  destruct (resolved _ _) as [q|] eqn:Hq.
  - destruct (find (matches q) (carts db)) as [cart|] eqn:Hfind.
    + intros Hidx. unfold updateCartItem, bind at 1.
      rewrite resolveQuery_run, Hq. unfold bind at 1.
      by rewrite Cart_findOne_run, Hfind, Hidx.
    + unfold updateCartItem, bind at 1. rewrite resolveQuery_run, Hq.
      unfold bind at 1. by rewrite Cart_findOne_run, Hfind.
  - unfold updateCartItem, bind at 1. by rewrite resolveQuery_run, Hq.
Qed.

End CartLinesRun.

(** ** What the cart handlers write *)

Lemma totalsOnly_id recalc c : totalsOnly recalc -> Cart._id (recalc c) = Cart._id c.
Proof. intros H. by rewrite (H c). Qed.

Lemma totalsOnly_items recalc c :
  totalsOnly recalc -> Cart.items (recalc c) = Cart.items c.
Proof. intros H. by rewrite (H c). Qed.

Lemma totalsOnly_matches recalc q c :
  totalsOnly recalc -> matches q (recalc c) = matches q c.
Proof. intros H. rewrite (H c). by destruct q. Qed.

Lemma matches_setItems q items c : matches q (Cart.setItems items c) = matches q c.
Proof. by destruct q. Qed.

Lemma replaceCart_lookup c cs i :
  replaceCart c cs !! i =
  (fun c' => if String.eqb (Cart._id c') (Cart._id c) then c else c') <$> cs !! i.
Proof.
  revert i. induction cs as [|a cs IH]; intros [|i]; cbn; auto.
Qed.

Section CartCallsFacts.

Variable recalculateTotals : Cart.t -> Cart.t.
Variable defaultTotals : Totals.t.
Variable defaultSavedForLater : bool.

Local Abbreviation run :=
  (runCartCall recalculateTotals defaultTotals defaultSavedForLater).

(** A cart call either leaves the database as it was, or ends without error
    after one write to the cart collection: the caller's cart overwritten, or
    a new cart appended when the caller had none. *)
Lemma runCartCall_effect call db :
  (run call db).1 = db \/
  (run call db).2 = None /\
  exists q c,
    callerOf call = Some q /\
    ((exists cart,
         find (matches q) (carts db) = Some cart /\
         (c = Cart.clear cart \/
          exists items, c = recalculateTotals (Cart.setItems items cart)) /\
         (run call db).1 = setCarts (replaceCart c (carts db)) db) \/
     (exists ids items,
         find (matches q) (carts db) = None /\
         c = recalculateTotals
               (Cart.setItems items (newCart defaultTotals ids q)) /\
         (run call db).1 = setCarts (carts db ++ [c]) db)).
Proof.
  destruct call as [req|env ids req|env req|env req|env req];
    cbn [runCartCall callerOf].
  - rewrite getCart_run. by left.
  - rewrite addToCart_run.
    destruct (products db !! AddToCartReq.productId req) as [p|]; [|by left].
    destruct (Product.stock p <? AddToCartReq.quantity req); [by left|].
    destruct (resolved _ _) as [q|]; [|by left]. cbn zeta.
    destruct (cartSaveFails env); [by left|].
    destruct (find (matches q) (carts db)) as [cart|] eqn:Hfind.
    + right. split; [done|]. eexists q, _. split; [done|]. left.
      exists cart. split; [done|]. split; [|reflexivity]. right. by eexists.
    + destruct (existsb _ _); [by left|].
      right. split; [done|]. eexists q, _. split; [done|]. right.
      eexists ids, _. split; [done|]. split; reflexivity.
  - pose proof (updateCartItem_not_found recalculateTotals env req db) as Hnf.
    destruct (resolved _ _) as [q|] eqn:Hq; [|rewrite Hnf; by left].
    destruct (find (matches q) (carts db)) as [cart|] eqn:Hfind;
      [|rewrite Hnf; by left].
    destruct (findIndex _ (Cart.items cart)) as [i|] eqn:Hidx;
      [|rewrite Hnf by done; by left].
    rewrite (updateCartItem_found recalculateTotals env req db q cart i)
      by done.
    destruct (applyQuantity _ _ _ db) as [? [items1|e]]; [|by left].
    destruct (applySavedForLater _ _ _ db) as [? [items2|e]]; [|by left].
    cbn zeta. destruct (cartSaveFails env); [by left|].
    right. split; [done|]. eexists q, _. split; [done|]. left.
    exists cart. split; [done|]. split; [|reflexivity]. right. by eexists.
  - rewrite removeFromCart_run.
    destruct (resolved _ _) as [q|]; [|by left].
    destruct (find (matches q) (carts db)) as [cart|] eqn:Hfind; [|by left].
    cbn zeta. destruct (cartSaveFails env); [by left|].
    right. split; [done|]. eexists q, _. split; [done|]. left.
    exists cart. split; [done|]. split; [|reflexivity]. right. by eexists.
  - rewrite clearCart_run.
    destruct (resolved _ _) as [q|]; [|by left].
    destruct (find (matches q) (carts db)) as [cart|] eqn:Hfind; [|by left].
    destruct (cartSaveFails env); [by left|].
    right. split; [done|]. eexists q, _. split; [done|]. left.
    exists cart. split; [done|]. split; [|reflexivity]. by left.
Qed.

(** X1.  No cart handler, succeeding or failing, changes a product document or an
    order: putting an item in a cart reserves no stock. *)
Theorem cart_calls_leave_stock_and_orders call db :
  products (run call db).1 = products db /\
  orders (run call db).1 = orders db.
Proof.
  destruct (runCartCall_effect call db)
    as [->|(_ & q & c & _ & [(cart & _ & _ & ->)|(ids & items & _ & _ & ->)])];
    done.
Qed.

(** X2.  A cart handler that raises an error (one of its 400 or 404 errors, the
    [TypeError] of the stale index, or a rejected save) has written nothing. *)
Theorem cart_calls_fail_without_writing call db db' e :
  run call db = (db', Some e) -> db' = db.
Proof.
  intros Hrun.
  destruct (runCartCall_effect call db) as [Hsame|(Hok & _)];
    rewrite Hrun in *; cbn in *; [done | discriminate].
Qed.

(** X3.  A cart handler writes to no cart but the caller's: a stored cart whose
    [_id] is not that of the cart the caller's identity resolves to is left as
    it is, at its place in the collection. *)
Theorem cart_calls_leave_other_carts call db i other :
  totalsOnly recalculateTotals ->
  carts db !! i = Some other ->
  (forall q cart,
      callerOf call = Some q ->
      find (matches q) (carts db) = Some cart ->
      Cart._id other <> Cart._id cart) ->
  carts (run call db).1 !! i = Some other.
Proof.
  intros Htotals Hother Hforeign.
  destruct (runCartCall_effect call db)
    as [->|(_ & q & c & Hq & [(cart & Hfind & Hc & ->)|(ids & items & _ & _ & ->)])].
  - done.
  - cbn [carts setCarts]. rewrite replaceCart_lookup, Hother. cbn.
    assert (Hid : Cart._id c = Cart._id cart).
    { destruct Hc as [->|(items & ->)]; [done|].
      by rewrite totalsOnly_id. }
    rewrite Hid.
    destruct (String.eqb_spec (Cart._id other) (Cart._id cart)) as [Heq|_];
      [|done].
    by destruct (Hforeign q cart Hq Hfind).
  - cbn [carts setCarts]. rewrite lookup_app_l; [done|].
    by eapply lookup_lt_Some.
Qed.

End CartCallsFacts.

(** ** Orders: how the operations compose *)

Lemma restoredQuantity_snapshot (ps : gmap string Product.t) id items lines :
  Forall2 (snapshotOf ps) items lines ->
  restoredQuantity id lines = orderedQuantity id items.
Proof.
  induction 1 as [|item line items lines (p & _ & ->) _ IH]; [done|].
  cbn [restoredQuantity orderedQuantity foldr OrderItem.product OrderItem.quantity].
  fold (restoredQuantity id lines). fold (orderedQuantity id items).
  by rewrite IH.
Qed.

Lemma applyIncs_comm a b (ps : gmap string Product.t) :
  applyIncs a (applyIncs b ps) = applyIncs b (applyIncs a ps).
Proof.
  apply map_eq. intros id. rewrite !applyIncs_lookup.
  destruct (ps !! id) as [p|]; cbn; [|done].
  f_equal. rewrite !incStock_incStock. f_equal. lia.
Qed.

Lemma applyIncs_undo a b (ps : gmap string Product.t) :
  (forall id, totalDelta id a + totalDelta id b = 0) ->
  applyIncs b (applyIncs a ps) = ps.
Proof.
  intros Hzero. apply map_eq. intros id. rewrite !applyIncs_lookup.
  destruct (ps !! id) as [p|]; cbn; [|done].
  f_equal. rewrite incStock_incStock, Hzero. apply incStock_zero.
Qed.

(** A successful [cancelOrder], written out. *)
Lemma cancelOrder_ok env req db order :
  orders db !! CancelOrderReq.id req = Some order ->
  notAuthorized (CancelOrderReq.user req) order = false ->
  cancellable (Order.status order) = true ->
  noFaults env ->
  cancelOrder env req db =
  (mkDB (applyIncs (stockRestores (Order.items order)) (products db))
        (carts db)
        (<[CancelOrderReq.id req := cancelled req order]> (orders db)),
   Ok (cancelled req order)).
Proof.
  intros Hfind Hauth Hstatus (Hos & _ & Hst).
  by rewrite cancelOrder_run, Hfind, Hauth, Hstatus, Hos, Hst.
Qed.

(** X4.  Cancelling the order that [createOrder] has just made gives back exactly
    the stock that was taken: every product document is as it was before the
    order. *)
Theorem createOrder_then_cancelOrder_restores_stock
    env req db db' order env' requester reason :
  createOrder env req db = (db', Ok order) ->
  Order.status order = "pending" \/ Order.status order = "processing" ->
  notAuthorized requester order = false ->
  noFaults env' ->
  exists order' db'',
    cancelOrder env' (CancelOrderReq.mk requester (newObjectId env) reason) db'
      = (db'', Ok order') /\
    Order.status order' = "cancelled" /\
    products db'' = products db.
Proof.
  intros Hrun Hstatus Hauth Hclean.
  apply createOrder_ok_inv in Hrun
    as (q & cart & lines & _ & _ & _ & _ & Hsnap & Hcommit).
  apply commitOrder_ok in Hcommit as (-> & Hps & _ & Hos).
  apply cancellable_iff in Hstatus.
  rewrite (cancelOrder_ok env' _ db' (newOrder req cart lines)); try done.
  2: { cbn. rewrite Hos. apply lookup_insert_eq. }
  eexists _, _. split; [reflexivity|]. split; [done|].
  cbn [products]. rewrite Hps. apply applyIncs_undo. intros id.
  rewrite totalDelta_stockDecrements, totalDelta_stockRestores.
  cbn [newOrder Order.items].
  rewrite (restoredQuantity_snapshot (products db) id (Cart.items cart)) by done.
  lia.
Qed.

(** X5.  After a successful [createOrder], a second [createOrder] for the same
    identity (a retried or doubled submission) fails with [EmptyCartError] and
    writes nothing, in any environment. *)
Theorem createOrder_retry_finds_empty_cart env req db db' order env' req' :
  createOrder env req db = (db', Ok order) ->
  resolved (CreateOrderReq.user req') (CreateOrderReq.sessionId req')
    = resolved (CreateOrderReq.user req) (CreateOrderReq.sessionId req) ->
  createOrder env' req' db' = (db', Throw EmptyCartError).
Proof.
  intros Hrun Hsame.
  apply createOrder_ok_inv in Hrun
    as (q & cart & lines & Hq & Hfind & _ & _ & _ & Hcommit).
  apply commitOrder_ok in Hcommit as (_ & _ & Hcs & _).
  rewrite createOrder_run, Hsame, Hq, Hcs.
  rewrite (find_replaceCart _ cart (Cart.clear cart)); [done|done| |done].
  rewrite matches_clear. by apply find_some_elem in Hfind as [_ ?].
Qed.

(** X6.  [updateOrderStatus] can undo a cancellation, and nothing remembers that the
    stock was already given back: cancel, set the status back to pending or
    processing, cancel again, and every product has received the order's
    quantity twice. *)
Theorem cancel_reopen_cancel_restores_twice
    env1 env2 env3 req db order newStatus note :
  orders db !! CancelOrderReq.id req = Some order ->
  notAuthorized (CancelOrderReq.user req) order = false ->
  Order.status order = "pending" \/ Order.status order = "processing" ->
  newStatus = "pending" \/ newStatus = "processing" ->
  noFaults env1 ->
  orderSaveFails env2 = false ->
  noFaults env3 ->
  exists db1 o1 db2 o2 db3 o3,
    cancelOrder env1 req db = (db1, Ok o1) /\
    updateOrderStatus env2
      (UpdateOrderStatusReq.mk (CancelOrderReq.id req) newStatus note) db1
      = (db2, Ok o2) /\
    cancelOrder env3 req db2 = (db3, Ok o3) /\
    forall id,
      stockOf (products db3) id =
      (fun s => s + 2 * restoredQuantity id (Order.items order))
        <$> stockOf (products db) id.
Proof.
  intros Hfind Hauth Hstatus Hnew Hclean1 Hsave2 Hclean3.
  apply cancellable_iff in Hstatus, Hnew.
  rewrite (cancelOrder_ok env1 req db order) by done.
  eexists _, _. eexists _, _. eexists _, _.
  split; [reflexivity|].
  rewrite updateOrderStatus_run. cbn [orders UpdateOrderStatusReq.id].
  rewrite lookup_insert_eq, Hsave2.
  split; [reflexivity|].
  rewrite (cancelOrder_ok env3 req _
             (statusUpdated
                (UpdateOrderStatusReq.mk (CancelOrderReq.id req) newStatus note)
                (cancelled req order))); try done.
  2: { cbn [orders setOrders]. apply lookup_insert_eq. }
  split; [reflexivity|].
  intros id. cbn [products setOrders].
  rewrite !applyIncs_stockOf, !totalDelta_stockRestores.
  unfold statusUpdated, cancelled. cbn [Order.items Order.transition].
  destruct (stockOf (products db) id); cbn; [f_equal; lia | done].
Qed.

(** X7.  Stock restoration is order-independent: cancelling two different orders
    in either order succeeds both ways and ends in the same database. *)
Theorem cancelOrder_commutes envA envB reqA reqB db orderA orderB :
  CancelOrderReq.id reqA <> CancelOrderReq.id reqB ->
  orders db !! CancelOrderReq.id reqA = Some orderA ->
  orders db !! CancelOrderReq.id reqB = Some orderB ->
  notAuthorized (CancelOrderReq.user reqA) orderA = false ->
  notAuthorized (CancelOrderReq.user reqB) orderB = false ->
  cancellable (Order.status orderA) = true ->
  cancellable (Order.status orderB) = true ->
  noFaults envA ->
  noFaults envB ->
  exists dbA dbB final oA oB,
    cancelOrder envA reqA db = (dbA, Ok oA) /\
    cancelOrder envB reqB dbA = (final, Ok oB) /\
    cancelOrder envB reqB db = (dbB, Ok oB) /\
    cancelOrder envA reqA dbB = (final, Ok oA).
Proof.
  intros Hne HA HB HauthA HauthB HstA HstB HcleanA HcleanB.
  rewrite (cancelOrder_ok envA reqA db orderA) by done.
  rewrite (cancelOrder_ok envB reqB db orderB) by done.
  eexists _, _, _, _, _. split; [reflexivity|].
  assert (HB' : orders
                  (mkDB (applyIncs (stockRestores (Order.items orderA)) (products db))
                     (carts db)
                     (<[CancelOrderReq.id reqA := cancelled reqA orderA]> (orders db)))
                !! CancelOrderReq.id reqB = Some orderB).
  { cbn [orders]. by rewrite lookup_insert_ne. }
  assert (HA' : orders
                  (mkDB (applyIncs (stockRestores (Order.items orderB)) (products db))
                     (carts db)
                     (<[CancelOrderReq.id reqB := cancelled reqB orderB]> (orders db)))
                !! CancelOrderReq.id reqA = Some orderA).
  { cbn [orders]. rewrite lookup_insert_ne; [done|]. congruence. }
  rewrite (cancelOrder_ok envB reqB _ orderB HB') by done.
  rewrite (cancelOrder_ok envA reqA _ orderA HA') by done.
  split; [reflexivity|]. split; [reflexivity|].
  cbn [products carts orders]. f_equal. f_equal.
  - apply applyIncs_comm.
  - apply insert_insert_ne. congruence.
Qed.

(** ** Orders: what no handler does to a stored order *)

(** The orders a run of [createOrder] leaves: the same, or one more under an
    [_id] that was free. *)
Lemma createOrder_orders env req db :
  (createOrder env req db).1 = db \/
  orders db !! newObjectId env = None /\
  exists order,
    orders (createOrder env req db).1 = <[newObjectId env := order]> (orders db).
Proof.
  rewrite createOrder_run.
  destruct (resolved _ _) as [q|]; [|by left].
  destruct (find (matches q) (carts db)) as [cart|]; [|by left].
  destruct (Cart.items cart) as [|i0 rest]; [by left|].
  destruct (find _ (i0 :: rest)); [by left|].
  destruct (mapOutcome orderItem (populate (products db) cart)) as [lines|];
    [|by left].
  rewrite commitOrder_run.
  destruct (orderSaveFails env); [by left|]. cbn [orb].
  destruct (bool_decide (is_Some (orders db !! newObjectId env))) eqn:Hfree;
    [by left|].
  right. split.
  - apply bool_decide_eq_false in Hfree.
    by apply eq_None_not_Some.
  - exists (newOrder req cart lines). cbn zeta.
    destruct (interruptedAt _ _); [done|].
    by destruct (cartSaveFails env).
Qed.

(** X8.  Whatever order handler runs, with whatever outcome, a stored order is
    still stored afterwards and is either untouched or has gone through exactly
    one status transition: a new current status together with a history entry
    of that status appended last.  Owner, line items, totals and earlier
    history never change, and no order is ever removed. *)
Theorem order_calls_only_append_status call db id order :
  orders db !! id = Some order ->
  exists order',
    orders (runOrderCall call db) !! id = Some order' /\
    (order' = order \/
     exists status note,
       order' = Order.transition status (StatusEntry.mk status note) order).
Proof.
  intros Hstored.
  destruct call as [env req|req|env req|env req]; cbn [runOrderCall].
  - destruct (createOrder_orders env req db) as [->|(Hfree & new & ->)].
    + exists order. auto.
    + exists order. split; [|auto].
      rewrite lookup_insert_ne; [done|]. congruence.
  - rewrite getOrderById_run. exists order. auto.
  - rewrite updateOrderStatus_run.
    destruct (orders db !! UpdateOrderStatusReq.id req) as [target|] eqn:Htarget;
      [|exists order; auto].
    destruct (orderSaveFails env); [exists order; auto|].
    cbn [fst orders setOrders].
    destruct (decide (UpdateOrderStatusReq.id req = id)) as [<-|Hne].
    + rewrite lookup_insert_eq. eexists. split; [done|]. right.
      rewrite Hstored in Htarget. injection Htarget as <-.
      by eexists _, _.
    + rewrite lookup_insert_ne by done. exists order. auto.
  - destruct (cancelOrder_effect env req db)
      as [->|(target & k & Htarget & _ & _ & ->)]; [exists order; auto|].
    destruct (decide (CancelOrderReq.id req = id)) as [<-|Hne].
    + rewrite lookup_insert_eq. eexists. split; [done|]. right.
      rewrite Hstored in Htarget. injection Htarget as <-.
      by eexists _, _.
    + rewrite lookup_insert_ne by done. exists order. auto.
Qed.

(** X9.  [getOrderById] writes nothing; it returns an order exactly when that
    order is stored under the id and the requester passes the ownership check;
    and it answers 403 exactly when [cancelOrder] answers [ForbiddenError] to
    the same requester for the same id: viewing and cancelling share one
    rule, including its gap for orders without owner. *)
Theorem getOrderById_shares_cancel_rule req db :
  (getOrderById req db).1 = db /\
  (forall order,
      (getOrderById req db).2 = Ok order <->
      orders db !! GetOrderByIdReq.id req = Some order /\
      notAuthorized (GetOrderByIdReq.user req) order = false) /\
  (forall env reason,
      (getOrderById req db).2 =
        Throw (ApiError 403 "You are not authorized to view this order") <->
      (cancelOrder env
         (CancelOrderReq.mk (GetOrderByIdReq.user req) (GetOrderByIdReq.id req)
            reason) db).2 = Throw ForbiddenError).
Proof.
  rewrite getOrderById_run. split; [done|]. cbn [snd]. split.
  - intros order.
    destruct (orders db !! GetOrderByIdReq.id req) as [stored|].
    + destruct (notAuthorized _ stored) eqn:Hauth.
      * split; [done|]. intros [[= ->] ?]. congruence.
      * split; [by intros [= ->] | by intros [[= ->] _]].
    + split; [done | by intros [? _]].
  - intros env reason. rewrite cancelOrder_run.
    cbn [CancelOrderReq.id CancelOrderReq.user].
    destruct (orders db !! GetOrderByIdReq.id req) as [stored|]; [|done].
    destruct (notAuthorized _ stored); [done|].
    destruct (negb (cancellable _)); [done|].
    destruct (orderSaveFails env); [done|]. cbn zeta.
    by destruct (interruptedAt _ _).
Qed.

(** ** Carts: lines added, changed and removed *)

Lemma find_app_none {A} (f : A -> bool) (l : list A) x :
  find f l = None -> find f (l ++ [x]) = if f x then Some x else None.
Proof.
  induction l as [|a l IH]; cbn; [done|].
  destruct (f a); [done | exact IH].
Qed.

Lemma matches_newCart defaultTotals ids q :
  matches q (newCart defaultTotals ids q) = true.
Proof. destruct q; cbn; apply String.eqb_refl. Qed.

Lemma findIndex_none {A} (f : A -> bool) (l : list A) :
  (forall x, x ∈ l -> f x = false) -> findIndex f l = None.
Proof.
  induction l as [|a l IH]; intros Hall; cbn [findIndex]; [done|].
  rewrite (Hall a) by apply list_elem_of_here.
  rewrite IH; [done|]. intros x Hx. apply Hall. by apply elem_of_cons; right.
Qed.

Lemma filter_keeps {A} (f : A -> bool) (l : list A) :
  (forall x, x ∈ l -> f x = true) -> List.filter f l = l.
Proof.
  induction l as [|a l IH]; intros Hall; cbn [List.filter]; [done|].
  rewrite (Hall a) by apply list_elem_of_here.
  f_equal. apply IH. intros x Hx. apply Hall. by apply elem_of_cons; right.
Qed.

(** With distinct line ids, filtering out an id is deleting its first (and
    only) occurrence. *)
Lemma filter_id_delete (items : list CartItem.t) itemId i :
  NoDup (CartItem._id <$> items) ->
  findIndex (fun item => String.eqb (CartItem._id item) itemId) items = Some i ->
  List.filter (fun item => negb (String.eqb (CartItem._id item) itemId)) items
  = delete i items.
Proof.
  revert i. induction items as [|item rest IH]; intros i Hnodup; [done|].
  cbn [fmap list_fmap] in Hnodup. apply NoDup_cons in Hnodup as [Hfresh Hnodup].
  cbn [findIndex List.filter].
  destruct (String.eqb_spec (CartItem._id item) itemId) as [Heq|Hne]; cbn [negb].
  - intros [= <-]. cbn. apply filter_keeps. intros x Hx.
    apply negb_true_iff, String.eqb_neq. intros Hsame.
    apply Hfresh. rewrite Heq, <- Hsame. by apply list_elem_of_fmap_2.
  - destruct (findIndex _ rest) as [j|] eqn:Hj; [|done].
    intros [= <-]. cbn. f_equal. by apply IH.
Qed.

Lemma replaceCart_idem c c' cs :
  Cart._id c' = Cart._id c ->
  replaceCart c' (replaceCart c cs) = replaceCart c' cs.
Proof.
  intros Hid. induction cs as [|a cs IH]; [done|].
  cbn [replaceCart map]. fold (replaceCart c cs) (replaceCart c' cs)
    (replaceCart c' (replaceCart c cs)).
  rewrite IH. f_equal. rewrite Hid.
  destruct (String.eqb (Cart._id a) (Cart._id c)) eqn:Ha.
  - by rewrite String.eqb_refl.
  - by rewrite Ha.
Qed.

Section CartLinesFacts.

Variable recalculateTotals : Cart.t -> Cart.t.
Variable defaultTotals : Totals.t.
Variable defaultSavedForLater : bool.
Hypothesis recalculateTotals_totalsOnly : totalsOnly recalculateTotals.

Local Abbreviation addToCart' :=
  (addToCart recalculateTotals defaultTotals defaultSavedForLater).

(** X10.  The cart a caller gets on a first [addToCart], and reads back.  When the
    identity has no cart yet, [addToCart] appends a new cart holding the one
    line asked for, at the product's current price, and a [getCart] by the
    same identity then returns exactly that cart. *)
Theorem addToCart_creates_cart_that_getCart_returns
    env ids user sessionId productId variantId quantity db q product :
  products db !! productId = Some product ->
  quantity <= Product.stock product ->
  resolved user sessionId = Some q ->
  find (matches q) (carts db) = None ->
  cartSaveFails env = false ->
  existsb (fun c => String.eqb (Cart._id c) (newCartId ids)) (carts db) = false ->
  exists cart' db',
    addToCart' env ids
      (AddToCartReq.mk user sessionId productId variantId quantity) db
      = (db', Ok (cart', populateSelected (products db) cart')) /\
    carts db' = (carts db ++ [cart'])%list /\
    Cart._id cart' = newCartId ids /\
    Cart.items cart' =
      [CartItem.mk (newItemId ids) productId variantId quantity
         (Product.price product) defaultSavedForLater] /\
    getCart (GetCartReq.mk user sessionId) db'
      = (db', Ok (CartRetrieved cart' (populateSelected (products db') cart'))).
Proof.
  intros Hp Hstock Hq Hfind Hsave Hfresh.
  rewrite addToCart_run. cbn [AddToCartReq.productId AddToCartReq.quantity
    AddToCartReq.user AddToCartReq.sessionId].
  rewrite Hp. apply Z.ltb_ge in Hstock. rewrite Hstock, Hq, Hfind, Hsave.
  cbn [default]. cbn zeta.
  set (cart' := recalculateTotals _).
  assert (Hid : Cart._id cart' = newCartId ids).
  { unfold cart'. rewrite totalsOnly_id by done. by destruct q. }
  assert (Hitems : Cart.items cart' =
    [CartItem.mk (newItemId ids) productId variantId quantity
       (Product.price product) defaultSavedForLater]).
  { unfold cart'. rewrite totalsOnly_items by done. by destruct q. }
  assert (Hmatch : matches q cart' = true).
  { unfold cart'. rewrite totalsOnly_matches by done.
    rewrite matches_setItems. apply matches_newCart. }
  rewrite Hid, Hfresh.
  eexists _, _. split; [reflexivity|]. cbn [carts setCarts].
  split; [done|]. split; [done|]. split; [done|].
  rewrite getCart_run. cbn [GetCartReq.user GetCartReq.sessionId carts setCarts].
  by rewrite Hq, (find_app_none _ _ _ Hfind), Hmatch.
Qed.

(** X11.  [addToCart] checks the stock against the quantity being added, not against
    the quantity the line ends up with, and leaves the line's price as it was.
    When the cart already has a matching line, the call adds to its quantity
    in place; if the sum exceeds the stock, the cart has been saved all the
    same and the next [createOrder] for it fails with
    [InsufficientStockError]. *)
Theorem addToCart_accumulates_past_stock
    env ids req db q cart i line product env' req' :
  products db !! AddToCartReq.productId req = Some product ->
  AddToCartReq.quantity req <= Product.stock product ->
  resolved (AddToCartReq.user req) (AddToCartReq.sessionId req) = Some q ->
  find (matches q) (carts db) = Some cart ->
  findIndex
    (sameLine (AddToCartReq.productId req) (AddToCartReq.variantId req))
    (Cart.items cart) = Some i ->
  Cart.items cart !! i = Some line ->
  cartSaveFails env = false ->
  resolved (CreateOrderReq.user req') (CreateOrderReq.sessionId req') = Some q ->
  exists cart' db',
    addToCart' env ids req db
      = (db', Ok (cart', populateSelected (products db) cart')) /\
    Cart.items cart' =
      <[i := CartItem.setQuantity
               (CartItem.quantity line + AddToCartReq.quantity req) line]>
        (Cart.items cart) /\
    CartItem.product line = AddToCartReq.productId req /\
    (Product.stock product < CartItem.quantity line + AddToCartReq.quantity req ->
     exists label,
       createOrder env' req' db' = (db', Throw (InsufficientStockError label))).
Proof.
  intros Hp Hstock Hq Hfind Hidx Hline Hsave Hq'.
  rewrite addToCart_run, Hp.
  apply Z.ltb_ge in Hstock. rewrite Hstock, Hq, Hfind, Hsave.
  cbn [default from_option]. unfold id. cbn zeta.
  set (cart' := recalculateTotals _).
  assert (Hitems : Cart.items cart' =
    <[i := CartItem.setQuantity
             (CartItem.quantity line + AddToCartReq.quantity req) line]>
      (Cart.items cart)).
  { unfold cart'. rewrite totalsOnly_items by done.
    cbn [Cart.items Cart.setItems]. unfold addLine. rewrite Hidx.
    apply list_eq. intros j. destruct (decide (i = j)) as [<-|Hne].
    - rewrite list_lookup_alter_eq, Hline. cbn.
      rewrite list_lookup_insert_eq; [done|]. by eapply lookup_lt_Some.
    - by rewrite list_lookup_alter_ne, list_lookup_insert_ne. }
  assert (Hproduct : CartItem.product line = AddToCartReq.productId req).
  { destruct (findIndex_lookup _ _ _ Hidx) as (x & Hx & Hsame).
    rewrite Hline in Hx. injection Hx as <-.
    unfold sameLine in Hsame. apply andb_true_iff in Hsame as [Hsame _].
    by apply String.eqb_eq. }
  eexists _, _. split; [reflexivity|]. split; [done|]. split; [done|].
  intros Hover.
  rewrite createOrder_run, Hq'. cbn [carts setCarts products].
  rewrite (find_replaceCart _ cart cart' _ Hfind).
  2: { unfold cart'. rewrite totalsOnly_matches, matches_setItems by done.
       by apply find_some_elem in Hfind as [_ ?]. }
  2: { unfold cart'. by rewrite totalsOnly_id. }
  rewrite Hitems.
  destruct (<[i:=_]> (Cart.items cart)) as [|i0 rest] eqn:Hlist.
  { apply (f_equal length) in Hlist. rewrite length_insert in Hlist.
    apply lookup_lt_Some in Hline. cbn in Hlist. lia. }
  rewrite <- Hlist.
  destruct (find _ (<[i:=_]> (Cart.items cart))) as [offender|] eqn:Hoff.
  { by eexists. }
  exfalso.
  assert (Hin : CartItem.setQuantity
                  (CartItem.quantity line + AddToCartReq.quantity req) line
                ∈ <[i:=CartItem.setQuantity
                         (CartItem.quantity line + AddToCartReq.quantity req)
                         line]> (Cart.items cart)).
  { eapply list_elem_of_lookup_2. apply list_lookup_insert_eq.
    by eapply lookup_lt_Some. }
  pose proof (proj1 (find_none_all _ _) Hoff _ Hin) as Hok.
  unfold inStock in Hok. cbn [CartItem.product CartItem.setQuantity
    CartItem.quantity] in Hok. rewrite Hproduct, Hp in Hok.
  apply negb_false_iff, negb_true_iff, Z.ltb_ge in Hok. lia.
Qed.

(** X12.  [removeFromCart] drops every line that carries the given id and keeps the
    others in order; an id that is not in the cart is not an error.  After it,
    an [updateCartItem] naming that id is answered 404 "Item not found in
    cart" and writes nothing. *)
Theorem removeFromCart_then_update_is_not_found env req db q cart env' req' :
  resolved (RemoveFromCartReq.user req) (RemoveFromCartReq.sessionId req)
    = Some q ->
  find (matches q) (carts db) = Some cart ->
  cartSaveFails env = false ->
  resolved (UpdateCartItemReq.user req') (UpdateCartItemReq.sessionId req')
    = Some q ->
  UpdateCartItemReq.itemId req' = RemoveFromCartReq.itemId req ->
  exists cart' db',
    removeFromCart recalculateTotals env req db = (db', Ok cart') /\
    Cart.items cart' =
      List.filter
        (fun item =>
           negb (String.eqb (CartItem._id item) (RemoveFromCartReq.itemId req)))
        (Cart.items cart) /\
    (forall item,
        item ∈ Cart.items cart' ->
        CartItem._id item <> RemoveFromCartReq.itemId req) /\
    find (matches q) (carts db') = Some cart' /\
    updateCartItem recalculateTotals env' req' db'
      = (db', Throw (ApiError 404 "Item not found in cart")).
Proof.
  intros Hq Hfind Hsave Hq' Hid.
  rewrite removeFromCart_run, Hq, Hfind, Hsave. cbn zeta.
  set (cart' := recalculateTotals _).
  assert (Hitems : Cart.items cart' =
    List.filter
      (fun item =>
         negb (String.eqb (CartItem._id item) (RemoveFromCartReq.itemId req)))
      (Cart.items cart)).
  { unfold cart'. by rewrite totalsOnly_items. }
  assert (Hgone : forall item,
    item ∈ Cart.items cart' ->
    CartItem._id item <> RemoveFromCartReq.itemId req).
  { intros item. rewrite Hitems. intros Hin.
    apply list_elem_of_In, filter_In in Hin as [_ Hkeep].
    by apply negb_true_iff, String.eqb_neq in Hkeep. }
  assert (Hfind' :
    find (matches q) (replaceCart cart' (carts db)) = Some cart').
  { apply (find_replaceCart _ cart); [done| |].
    - unfold cart'. rewrite totalsOnly_matches, matches_setItems by done.
      by apply find_some_elem in Hfind as [_ ?].
    - unfold cart'. by rewrite totalsOnly_id. }
  eexists _, _. split; [reflexivity|]. split; [done|]. split; [done|].
  cbn [carts setCarts]. split; [done|].
  pose proof (updateCartItem_not_found recalculateTotals env' req'
                (setCarts (replaceCart cart' (carts db)) db)) as Hnf.
  rewrite Hq' in Hnf. cbn [carts setCarts] in Hnf. rewrite Hfind' in Hnf.
  apply Hnf. apply findIndex_none. intros item Hin.
  rewrite Hid. by apply String.eqb_neq, Hgone.
Qed.

(** X13.  When the line ids of the cart are distinct, [updateCartItem] with a
    quantity [<= 0] (and no [savedForLater]) and [removeFromCart] are the same
    operation: in the same environment they leave the same database and
    return the same cart. *)
Theorem updateCartItem_zero_quantity_is_removeFromCart
    env reqU reqR db q cart i quantity :
  resolved (UpdateCartItemReq.user reqU) (UpdateCartItemReq.sessionId reqU)
    = Some q ->
  resolved (RemoveFromCartReq.user reqR) (RemoveFromCartReq.sessionId reqR)
    = Some q ->
  UpdateCartItemReq.itemId reqU = RemoveFromCartReq.itemId reqR ->
  find (matches q) (carts db) = Some cart ->
  findIndex
    (fun item => String.eqb (CartItem._id item) (UpdateCartItemReq.itemId reqU))
    (Cart.items cart) = Some i ->
  NoDup (CartItem._id <$> Cart.items cart) ->
  UpdateCartItemReq.quantity reqU = Some quantity ->
  quantity <= 0 ->
  UpdateCartItemReq.savedForLater reqU = None ->
  (updateCartItem recalculateTotals env reqU db).1
    = (removeFromCart recalculateTotals env reqR db).1 /\
  match
    (updateCartItem recalculateTotals env reqU db).2,
    (removeFromCart recalculateTotals env reqR db).2
  with
  | Ok (cartU, _), Ok cartR =>
      cartU = cartR /\ Cart.items cartR = delete i (Cart.items cart)
  | Throw eU, Throw eR => eU = eR /\ cartSaveFails env = true
  | _, _ => False
  end.
Proof.
  intros HqU HqR Hid Hfind Hidx Hnodup Hquantity Hle Hflag.
  rewrite (updateCartItem_found recalculateTotals env reqU db q cart i) by done.
  rewrite removeFromCart_run, HqR, Hfind.
  unfold applyQuantity, applySavedForLater. rewrite Hquantity, Hflag.
  apply Z.leb_le in Hle. rewrite Hle. unfold ret. cbn zeta.
  rewrite <- Hid, (filter_id_delete _ _ i) by done.
  destruct (cartSaveFails env); cbn; [done|].
  split; [done|]. split; [done|]. by rewrite totalsOnly_items.
Qed.

(** X14.  [updateCartItem] with a positive quantity checks the new quantity of the
    line, as a whole, against the stock of its product.  If the product is
    gone or has less, the call fails with 400 and writes nothing; otherwise
    only the named line changes, only in its quantity, and that line passes
    the stock check of [createOrder]. *)
Theorem updateCartItem_sets_checked_quantity env req db q cart i line quantity :
  resolved (UpdateCartItemReq.user req) (UpdateCartItemReq.sessionId req)
    = Some q ->
  find (matches q) (carts db) = Some cart ->
  findIndex
    (fun item => String.eqb (CartItem._id item) (UpdateCartItemReq.itemId req))
    (Cart.items cart) = Some i ->
  Cart.items cart !! i = Some line ->
  UpdateCartItemReq.quantity req = Some quantity ->
  0 < quantity ->
  UpdateCartItemReq.savedForLater req = None ->
  cartSaveFails env = false ->
  (inStock (products db) (CartItem.setQuantity quantity line) = false ->
   updateCartItem recalculateTotals env req db
     = (db, Throw (ApiError 400 "Not enough stock available"))) /\
  (inStock (products db) (CartItem.setQuantity quantity line) = true ->
   exists cart' db',
     updateCartItem recalculateTotals env req db
       = (db', Ok (cart', populateSelected (products db) cart')) /\
     Cart.items cart' =
       <[i := CartItem.setQuantity quantity line]> (Cart.items cart) /\
     products db' = products db /\
     find (matches q) (carts db') = Some cart').
Proof.
  intros Hq Hfind Hidx Hline Hquantity Hpos Hflag Hsave.
  rewrite (updateCartItem_found recalculateTotals env req db q cart i) by done.
  unfold applyQuantity, applySavedForLater. rewrite Hquantity, Hflag, Hline.
  assert ((quantity <=? 0) = false) as -> by (by apply Z.leb_gt).
  unfold bind, Product_findById, inStock.
  cbn [CartItem.product CartItem.quantity CartItem.setQuantity].
  destruct (products db !! CartItem.product line) as [p|].
  - destruct (Product.stock p <? quantity); cbn [negb].
    + split; [done|]. discriminate.
    + split; [discriminate|]. intros _. unfold ret. cbn zeta. rewrite Hsave.
      eexists _, _. split; [reflexivity|]. split.
      { by rewrite totalsOnly_items. }
      split; [done|]. cbn [carts setCarts].
      apply (find_replaceCart _ cart); [done| |].
      * rewrite totalsOnly_matches, matches_setItems by done.
        by apply find_some_elem in Hfind as [_ ?].
      * by rewrite totalsOnly_id.
  - split; [done|]. discriminate.
Qed.

End CartLinesFacts.

(** ** From the cart to the order *)

(** X15.  [clearCart] leaves the caller's cart with no line, no coupon and zero
    totals, as a successful [createOrder] does; running it again changes
    nothing more, and a [createOrder] for that cart then fails with
    [EmptyCartError] without writing. *)
Theorem clearCart_empties_and_blocks_checkout env req db q cart env' env'' req' :
  resolved (ClearCartReq.user req) (ClearCartReq.sessionId req) = Some q ->
  find (matches q) (carts db) = Some cart ->
  cartSaveFails env = false ->
  cartSaveFails env' = false ->
  resolved (CreateOrderReq.user req') (CreateOrderReq.sessionId req') = Some q ->
  exists db',
    clearCart env req db = (db', Ok (Cart.clear cart)) /\
    find (matches q) (carts db') = Some (Cart.clear cart) /\
    products db' = products db /\
    clearCart env' req db' = (db', Ok (Cart.clear cart)) /\
    createOrder env'' req' db' = (db', Throw EmptyCartError).
Proof.
  intros Hq Hfind Hsave Hsave' Hq'.
  rewrite clearCart_run, Hq, Hfind, Hsave.
  assert (Hfind' :
    find (matches q) (replaceCart (Cart.clear cart) (carts db))
    = Some (Cart.clear cart)).
  { apply (find_replaceCart _ cart); [done| |done].
    rewrite matches_clear. by apply find_some_elem in Hfind as [_ ?]. }
  eexists. split; [reflexivity|]. cbn [carts setCarts products].
  split; [done|]. split; [done|]. split.
  - rewrite clearCart_run, Hq. cbn [carts setCarts]. rewrite Hfind', Hsave'.
    unfold setCarts. cbn [products carts orders].
    by rewrite replaceCart_idem.
  - rewrite createOrder_run, Hq'. cbn [carts setCarts]. by rewrite Hfind'.
Qed.

Section Checkout.

Variable recalculateTotals : Cart.t -> Cart.t.
Variable defaultTotals : Totals.t.
Variable defaultSavedForLater : bool.
Hypothesis recalculateTotals_totalsOnly : totalsOnly recalculateTotals.

Local Abbreviation addToCart' :=
  (addToCart recalculateTotals defaultTotals defaultSavedForLater).

(** X16.  The oversold stock is reachable through the handlers alone.  A signed-in
    customer without a cart adds the same product under two different variant
    ids, each time a quantity the stock covers; [addToCart] makes two lines of
    it, [createOrder] checks each line on its own, and the order goes through
    with the stock of the product reduced by both quantities, below zero
    when their sum exceeds the stock. *)
Theorem two_variants_of_one_product_oversell
    env envC ids1 ids2 u db productId product v1 v2 q1 q2 reqC :
  products db !! productId = Some product ->
  q1 <= Product.stock product ->
  q2 <= Product.stock product ->
  v1 <> "" -> v2 <> "" -> v1 <> v2 ->
  find (matches (ByUser (User.id u))) (carts db) = None ->
  existsb (fun c => String.eqb (Cart._id c) (newCartId ids1)) (carts db) = false ->
  cartSaveFails env = false ->
  CreateOrderReq.user reqC = Some u ->
  noFaults envC ->
  orders db !! newObjectId envC = None ->
  exists db1 r1 db2 r2 db3 order,
    addToCart' env ids1
      (AddToCartReq.mk (Some u) None productId (Some v1) q1) db = (db1, Ok r1) /\
    addToCart' env ids2
      (AddToCartReq.mk (Some u) None productId (Some v2) q2) db1 = (db2, Ok r2) /\
    length (Cart.items r2.1) = 2%nat /\
    createOrder envC reqC db2 = (db3, Ok order) /\
    stockOf (products db3) productId = Some (Product.stock product - q1 - q2).
Proof.
  intros Hp Hq1 Hq2 Hv1 Hv2 Hv Hnone Hfresh Hsave Huser (Hos & Hcs & Hst) Hfree.
  apply Z.ltb_ge in Hq1, Hq2.
  set (line1 := CartItem.mk (newItemId ids1) productId (Some v1) q1
                  (Product.price product) defaultSavedForLater).
  set (line2 := CartItem.mk (newItemId ids2) productId (Some v2) q2
                  (Product.price product) defaultSavedForLater).
  set (cart1 :=
         recalculateTotals
           (Cart.setItems [line1]
              (newCart defaultTotals ids1 (ByUser (User.id u))))).
  set (cart2 := recalculateTotals (Cart.setItems [line1; line2] cart1)).
  set (db1 := setCarts (carts db ++ [cart1]) db).
  set (db2 := setCarts (replaceCart cart2 (carts db1)) db1).
  assert (Hid1 : Cart._id cart1 = newCartId ids1).
  { unfold cart1. by rewrite totalsOnly_id. }
  assert (Hitems1 : Cart.items cart1 = [line1]).
  { unfold cart1. by rewrite totalsOnly_items. }
  assert (Hmatch1 : matches (ByUser (User.id u)) cart1 = true).
  { unfold cart1. rewrite totalsOnly_matches, matches_setItems by done.
    apply matches_newCart. }
  assert (Hitems2 : Cart.items cart2 = [line1; line2]).
  { unfold cart2. by rewrite totalsOnly_items. }
  assert (Hfind1 : find (matches (ByUser (User.id u))) (carts db1) = Some cart1).
  { unfold db1. cbn [carts setCarts].
    by rewrite (find_app_none _ _ _ Hnone), Hmatch1. }
  assert (Hfind2 : find (matches (ByUser (User.id u))) (carts db2) = Some cart2).
  { unfold db2. cbn [carts setCarts]. apply (find_replaceCart _ cart1 cart2).
    - exact Hfind1.
    - unfold cart2. by rewrite totalsOnly_matches, matches_setItems.
    - unfold cart2. by rewrite totalsOnly_id. }
  (* first call: a new cart with one line *)
  assert (Hadd1 :
    addToCart' env ids1
      (AddToCartReq.mk (Some u) None productId (Some v1) q1) db
    = (db1, Ok (cart1, populateSelected (products db) cart1))).
  { rewrite addToCart_run. cbn [AddToCartReq.productId AddToCartReq.quantity
      AddToCartReq.user AddToCartReq.sessionId resolved].
    rewrite Hp, Hq1, Hnone, Hsave. cbn [default from_option]. cbn zeta.
    fold line1. change (addLine _ _ _ _ _) with [line1]. fold cart1.
    by rewrite Hid1, Hfresh. }
  (* second call: the variant differs, so a second line is pushed *)
  assert (Hline2 :
    addLine defaultSavedForLater ids2
      (AddToCartReq.mk (Some u) None productId (Some v2) q2) product
      (Cart.items cart1) = [line1; line2]).
  { rewrite Hitems1. unfold addLine.
    cbn [findIndex AddToCartReq.productId AddToCartReq.variantId
      AddToCartReq.quantity].
    assert (sameLine productId (Some v2) line1 = false) as ->; [|done].
    unfold sameLine, line1.
    cbn [CartItem.product CartItem.variant truthy default from_option].
    unfold id. apply String.eqb_neq in Hv2, Hv. rewrite Hv2, Hv.
    by rewrite String.eqb_refl. }
  assert (Hadd2 :
    addToCart' env ids2
      (AddToCartReq.mk (Some u) None productId (Some v2) q2) db1
    = (db2, Ok (cart2, populateSelected (products db1) cart2))).
  { rewrite addToCart_run. cbn [AddToCartReq.productId AddToCartReq.quantity
      AddToCartReq.user AddToCartReq.sessionId resolved].
    change (products db1) with (products db).
    rewrite Hp, Hq2, Hfind1, Hsave. cbn [default from_option]. unfold id.
    cbn zeta. rewrite Hline2. by fold cart2. }
  (* checkout: each line passes the check on its own *)
  assert (Hall : forall item,
    item ∈ Cart.items cart2 -> inStock (products db2) item = true).
  { intros item. rewrite Hitems2. change (products db2) with (products db).
    intros [->|[->|Hnil%elem_of_nil]%elem_of_cons]%elem_of_cons; [| |done];
      unfold inStock; cbn [CartItem.product CartItem.quantity line1 line2];
      by rewrite Hp, ?Hq1, ?Hq2. }
  destruct (orderItems_ok (products db2) (Cart.items cart2) Hall)
    as (lines & Hmap & _).
  assert (Hcreate :
    createOrder envC reqC db2 =
    (mkDB (applyIncs (stockDecrements (Cart.items cart2)) (products db2))
          (replaceCart (Cart.clear cart2) (carts db2))
          (<[newObjectId envC := newOrder reqC cart2 lines]> (orders db2)),
     Ok (newOrder reqC cart2 lines))).
  { rewrite (createOrder_checked envC reqC db2 (ByUser (User.id u)) cart2 lines);
      try done.
    - rewrite commitOrder_run, Hos, Hcs, Hst.
      change (orders db2) with (orders db). rewrite Hfree.
      by rewrite bool_decide_eq_false_2 by (intros [? ?]; done).
    - by rewrite Huser.
    - by rewrite Hitems2. }
  eexists _, _. eexists _, _. eexists _, _.
  split; [exact Hadd1|]. split; [exact Hadd2|].
  split; [exact (f_equal length Hitems2)|]. split; [exact Hcreate|].
  cbn [products]. change (products db2) with (products db).
  rewrite applyIncs_stockOf, totalDelta_stockDecrements, Hitems2.
  unfold stockOf. rewrite Hp. cbn [fmap option_fmap option_map].
  f_equal. cbn [orderedQuantity foldr line1 line2 CartItem.product
    CartItem.quantity]. rewrite String.eqb_refl. lia.
Qed.

End Checkout.

(** ** The hypotheses of the further properties, at the scenarios *)

Lemma scenario_recalculateTotals_totalsOnly :
  totalsOnly ScenarioCart.recalculateTotals.
Proof. intros c. reflexivity. Qed.

Lemma scenario_line_ids_distinct :
  NoDup (CartItem._id <$> Cart.items Scenario.cart).
Proof.
  vm_compute.
  repeat constructor; rewrite ?elem_of_cons, ?elem_of_nil; intuition discriminate.
Qed.

Lemma cart_calls_fail_without_writing_witness :
  (runCartCall ScenarioCart.recalculateTotals Totals.zero false
     (CallUpdateCartItem Scenario.env ScenarioCart.reqLast) Scenario.db).1
  = Scenario.db.
Proof.
  apply (cart_calls_fail_without_writing ScenarioCart.recalculateTotals
           Totals.zero false
           (CallUpdateCartItem Scenario.env ScenarioCart.reqLast) Scenario.db
           _ (TypeError
                "Cannot set properties of undefined (setting 'savedForLater')")).
  vm_compute. reflexivity.
Defined.

Lemma cart_calls_leave_other_carts_witness :
  carts
    (runCartCall ScenarioCart.recalculateTotals Totals.zero false
       (CallClearCart Scenario.env ScenarioShop.clearReq)
       ScenarioShop.dbTwoCarts).1 !! 1%nat
  = Some ScenarioShop.bobCart.
Proof.
  apply (cart_calls_leave_other_carts ScenarioCart.recalculateTotals
           Totals.zero false
           (CallClearCart Scenario.env ScenarioShop.clearReq)
           ScenarioShop.dbTwoCarts 1%nat ScenarioShop.bobCart).
  - intros c. reflexivity.
  - reflexivity.
  - intros q cart Hq Hfind. vm_compute in Hq. injection Hq as <-.
    vm_compute in Hfind. injection Hfind as <-. discriminate.
Defined.

Lemma createOrder_then_cancelOrder_restores_stock_witness :
  exists order' db'',
    cancelOrder Scenario.env (CancelOrderReq.mk Scenario.alice "o1" None)
      (createOrder Scenario.env Scenario.req Scenario.db).1
      = (db'', Ok order') /\
    Order.status order' = "cancelled" /\
    products db'' = products Scenario.db.
Proof.
  apply (createOrder_then_cancelOrder_restores_stock Scenario.env Scenario.req
           Scenario.db _ ScenarioRepriced.order Scenario.env Scenario.alice None).
  - vm_compute. reflexivity.
  - left. reflexivity.
  - reflexivity.
  - repeat split; reflexivity.
Defined.

Lemma createOrder_retry_finds_empty_cart_witness :
  createOrder Scenario.env Scenario.req
    (createOrder Scenario.env Scenario.req Scenario.db).1
  = ((createOrder Scenario.env Scenario.req Scenario.db).1,
     Throw EmptyCartError).
Proof.
  apply (createOrder_retry_finds_empty_cart Scenario.env Scenario.req
           Scenario.db _ ScenarioRepriced.order Scenario.env Scenario.req).
  - vm_compute. reflexivity.
  - reflexivity.
Defined.

Lemma cancel_reopen_cancel_restores_twice_witness :
  exists db1 o1 db2 o2 db3 o3,
    cancelOrder Scenario.env ScenarioCancel.req ScenarioCancel.db = (db1, Ok o1) /\
    updateOrderStatus Scenario.env
      (UpdateOrderStatusReq.mk "o1" "pending" None) db1 = (db2, Ok o2) /\
    cancelOrder Scenario.env ScenarioCancel.req db2 = (db3, Ok o3) /\
    forall id,
      stockOf (products db3) id =
      (fun s => s + 2 * restoredQuantity id (Order.items ScenarioCancel.order))
        <$> stockOf (products ScenarioCancel.db) id.
Proof.
  apply (cancel_reopen_cancel_restores_twice Scenario.env Scenario.env
           Scenario.env ScenarioCancel.req ScenarioCancel.db
           ScenarioCancel.order "pending" None).
  - reflexivity.
  - reflexivity.
  - left. reflexivity.
  - left. reflexivity.
  - repeat split; reflexivity.
  - reflexivity.
  - repeat split; reflexivity.
Defined.

Lemma cancelOrder_commutes_witness :
  exists dbA dbB final oA oB,
    cancelOrder Scenario.env ScenarioCancel.req ScenarioShop.dbTwoOrders
      = (dbA, Ok oA) /\
    cancelOrder Scenario.env ScenarioGuest.req dbA = (final, Ok oB) /\
    cancelOrder Scenario.env ScenarioGuest.req ScenarioShop.dbTwoOrders
      = (dbB, Ok oB) /\
    cancelOrder Scenario.env ScenarioCancel.req dbB = (final, Ok oA).
Proof.
  apply (cancelOrder_commutes Scenario.env Scenario.env ScenarioCancel.req
           ScenarioGuest.req ScenarioShop.dbTwoOrders ScenarioCancel.order
           ScenarioGuest.order).
  - discriminate.
  - reflexivity.
  - reflexivity.
  - reflexivity.
  - reflexivity.
  - reflexivity.
  - reflexivity.
  - repeat split; reflexivity.
  - repeat split; reflexivity.
Defined.

Lemma order_calls_only_append_status_witness :
  exists order',
    orders
      (runOrderCall (CallCancelOrder Scenario.env ScenarioCancel.req)
         ScenarioCancel.db) !! "o1" = Some order' /\
    (order' = ScenarioCancel.order \/
     exists status note,
       order' =
       Order.transition status (StatusEntry.mk status note) ScenarioCancel.order).
Proof.
  apply (order_calls_only_append_status
           (CallCancelOrder Scenario.env ScenarioCancel.req) ScenarioCancel.db
           "o1" ScenarioCancel.order).
  reflexivity.
Defined.

Lemma getOrderById_shares_cancel_rule_witness :
  (getOrderById (GetOrderByIdReq.mk ScenarioGuest.mallory "o2")
     ScenarioGuest.dbOwned).2
  = Throw (ApiError 403 "You are not authorized to view this order") /\
  (getOrderById (GetOrderByIdReq.mk ScenarioGuest.mallory "o2")
     ScenarioGuest.db).2
  = Ok ScenarioGuest.order.
Proof.
  split.
  - apply (proj2 (proj2 (getOrderById_shares_cancel_rule
                           (GetOrderByIdReq.mk ScenarioGuest.mallory "o2")
                           ScenarioGuest.dbOwned)) Scenario.env None).
    reflexivity.
  - apply (proj1 (proj2 (getOrderById_shares_cancel_rule
                           (GetOrderByIdReq.mk ScenarioGuest.mallory "o2")
                           ScenarioGuest.db)) ScenarioGuest.order).
    split; reflexivity.
Defined.

Lemma addToCart_creates_cart_that_getCart_returns_witness :
  exists cart' db',
    addToCart ScenarioCart.recalculateTotals Totals.zero false Scenario.env
      ScenarioShop.ids1
      (AddToCartReq.mk (Some Scenario.alice) None "p" None 2) ScenarioShop.db
      = (db', Ok (cart', populateSelected (products ScenarioShop.db) cart')) /\
    carts db' = (carts ScenarioShop.db ++ [cart'])%list /\
    Cart._id cart' = "c9" /\
    Cart.items cart' = [CartItem.mk "i8" "p" None 2 1000 false] /\
    getCart (GetCartReq.mk (Some Scenario.alice) None) db'
      = (db', Ok (CartRetrieved cart' (populateSelected (products db') cart'))).
Proof.
  apply (addToCart_creates_cart_that_getCart_returns
           ScenarioCart.recalculateTotals Totals.zero false
           scenario_recalculateTotals_totalsOnly Scenario.env ScenarioShop.ids1
           (Some Scenario.alice) None "p" None 2 ScenarioShop.db (ByUser "u1")
           Scenario.P).
  - reflexivity.
  - simpl. lia.
  - reflexivity.
  - reflexivity.
  - reflexivity.
  - reflexivity.
Defined.

Lemma addToCart_accumulates_past_stock_witness :
  exists cart' db',
    addToCart ScenarioCart.recalculateTotals Totals.zero false Scenario.env
      ScenarioShop.ids1 ScenarioShop.addPens Scenario.db
      = (db', Ok (cart', populateSelected (products Scenario.db) cart')) /\
    Cart.items cart' =
      [CartItem.setQuantity 6 Scenario.lineP; Scenario.lineQ] /\
    exists label,
      createOrder Scenario.env Scenario.req db'
        = (db', Throw (InsufficientStockError label)).
Proof.
  destruct (addToCart_accumulates_past_stock
              ScenarioCart.recalculateTotals Totals.zero false
              scenario_recalculateTotals_totalsOnly Scenario.env
              ScenarioShop.ids1 ScenarioShop.addPens Scenario.db (ByUser "u1")
              Scenario.cart 0%nat Scenario.lineP Scenario.P Scenario.env
              Scenario.req)
    as (cart' & db' & Hrun & Hitems & _ & Hcheckout);
    [reflexivity | simpl; lia | reflexivity | reflexivity | reflexivity
    | reflexivity | reflexivity | reflexivity |].
  exists cart', db'. split; [exact Hrun|]. split; [exact Hitems|].
  apply Hcheckout. simpl. lia.
Defined.

Lemma removeFromCart_then_update_is_not_found_witness :
  exists cart' db',
    removeFromCart ScenarioCart.recalculateTotals Scenario.env
      ScenarioShop.removeFirst Scenario.db = (db', Ok cart') /\
    Cart.items cart' = [Scenario.lineQ] /\
    updateCartItem ScenarioCart.recalculateTotals Scenario.env
      ScenarioShop.fourPens db'
      = (db', Throw (ApiError 404 "Item not found in cart")).
Proof.
  destruct (removeFromCart_then_update_is_not_found
              ScenarioCart.recalculateTotals
              scenario_recalculateTotals_totalsOnly Scenario.env
              ScenarioShop.removeFirst Scenario.db (ByUser "u1") Scenario.cart
              Scenario.env ScenarioShop.fourPens)
    as (cart' & db' & Hrun & Hitems & _ & _ & Hupdate);
    [reflexivity | reflexivity | reflexivity | reflexivity | reflexivity |].
  exists cart', db'. split; [exact Hrun|]. split; [exact Hitems | exact Hupdate].
Defined.

Lemma updateCartItem_zero_quantity_is_removeFromCart_witness :
  (updateCartItem ScenarioCart.recalculateTotals Scenario.env
     ScenarioShop.dropFirst Scenario.db).1
  = (removeFromCart ScenarioCart.recalculateTotals Scenario.env
       ScenarioShop.removeFirst Scenario.db).1.
Proof.
  apply (updateCartItem_zero_quantity_is_removeFromCart
           ScenarioCart.recalculateTotals
           scenario_recalculateTotals_totalsOnly Scenario.env
           ScenarioShop.dropFirst ScenarioShop.removeFirst Scenario.db
           (ByUser "u1") Scenario.cart 0%nat 0).
  - reflexivity.
  - reflexivity.
  - reflexivity.
  - reflexivity.
  - reflexivity.
  - exact scenario_line_ids_distinct.
  - reflexivity.
  - lia.
  - reflexivity.
Defined.

Lemma updateCartItem_sets_checked_quantity_witness :
  exists cart' db',
    updateCartItem ScenarioCart.recalculateTotals Scenario.env
      ScenarioShop.fourPens Scenario.db
      = (db', Ok (cart', populateSelected (products Scenario.db) cart')) /\
    Cart.items cart' = [CartItem.setQuantity 4 Scenario.lineP; Scenario.lineQ] /\
    products db' = products Scenario.db /\
    find (matches (ByUser "u1")) (carts db') = Some cart'.
Proof.
  apply (proj2 (updateCartItem_sets_checked_quantity
                  ScenarioCart.recalculateTotals
                  scenario_recalculateTotals_totalsOnly Scenario.env
                  ScenarioShop.fourPens Scenario.db (ByUser "u1") Scenario.cart
                  0%nat Scenario.lineP 4 eq_refl eq_refl eq_refl eq_refl
                  eq_refl eq_refl eq_refl eq_refl)).
  reflexivity.
Defined.

Lemma clearCart_empties_and_blocks_checkout_witness :
  exists db',
    clearCart Scenario.env ScenarioShop.clearReq Scenario.db
      = (db', Ok (Cart.clear Scenario.cart)) /\
    find (matches (ByUser "u1")) (carts db') = Some (Cart.clear Scenario.cart) /\
    products db' = products Scenario.db /\
    clearCart Scenario.env ScenarioShop.clearReq db'
      = (db', Ok (Cart.clear Scenario.cart)) /\
    createOrder Scenario.env Scenario.req db' = (db', Throw EmptyCartError).
Proof.
  apply (clearCart_empties_and_blocks_checkout Scenario.env
           ScenarioShop.clearReq Scenario.db (ByUser "u1") Scenario.cart
           Scenario.env Scenario.env Scenario.req); reflexivity.
Defined.

Lemma two_variants_of_one_product_oversell_witness :
  exists db1 r1 db2 r2 db3 order,
    addToCart ScenarioCart.recalculateTotals Totals.zero false Scenario.env
      ScenarioShop.ids1
      (AddToCartReq.mk (Some Scenario.alice) None "p" (Some "v1") 3)
      ScenarioShop.db = (db1, Ok r1) /\
    addToCart ScenarioCart.recalculateTotals Totals.zero false Scenario.env
      ScenarioShop.ids2
      (AddToCartReq.mk (Some Scenario.alice) None "p" (Some "v2") 3) db1
      = (db2, Ok r2) /\
    length (Cart.items r2.1) = 2%nat /\
    createOrder Scenario.env Scenario.req db2 = (db3, Ok order) /\
    stockOf (products db3) "p" = Some (5 - 3 - 3).
Proof.
  apply (two_variants_of_one_product_oversell
           ScenarioCart.recalculateTotals Totals.zero false
           scenario_recalculateTotals_totalsOnly Scenario.env Scenario.env
           ScenarioShop.ids1 ScenarioShop.ids2 Scenario.alice ScenarioShop.db
           "p" Scenario.P "v1" "v2" 3 3 Scenario.req).
  - reflexivity.
  - simpl. lia.
  - simpl. lia.
  - discriminate.
  - discriminate.
  - discriminate.
  - reflexivity.
  - reflexivity.
  - reflexivity.
  - reflexivity.
  - repeat split; reflexivity.
  - reflexivity.
Defined.

Lemma scenario_db_consistent : consistent Scenario.db.
Proof.
  split.
  - intros id p Hp. cbn [products Scenario.db] in Hp.
    apply lookup_insert_Some in Hp as [[_ <-]|[_ Hp]]; [cbn; lia|].
    apply lookup_insert_Some in Hp as [[_ <-]|[_ Hp]]; [cbn; lia|].
    by rewrite lookup_empty in Hp.
  - intros cart item Hcart Hitem. cbn [carts Scenario.db] in Hcart.
    apply list_elem_of_singleton in Hcart as ->.
    cbn [Cart.items Scenario.cart] in Hitem.
    apply elem_of_cons in Hitem as [->|Hitem]; [cbn; lia|].
    apply list_elem_of_singleton in Hitem as ->. cbn. lia.
  - intros cart Hcart. cbn [carts Scenario.db] in Hcart.
    apply list_elem_of_singleton in Hcart as ->.
    vm_compute.
    repeat constructor; rewrite ?elem_of_cons, ?elem_of_nil; intuition discriminate.
  - intros id order line Horder. cbn [orders Scenario.db] in Horder.
    by rewrite lookup_empty in Horder.
Qed.

Lemma stock_nonneg_preserved_witness :
  consistent
    (cancelOrder Scenario.env (CancelOrderReq.mk Scenario.alice "o1" None)
       (createOrder Scenario.env Scenario.req Scenario.db).1).1.
Proof.
  apply (stock_nonneg_preserved Scenario.db).
  - exact scenario_db_consistent.
  - eapply rtc_l; [apply step_createOrder|].
    eapply rtc_l; [apply step_cancelOrder|]. apply rtc_refl.
Defined.
